(** * The Mapillary SDK: GeoJSON converters, option checks and the
      bounding-box controller

    A shallow embedding of
    - [mapillary/utils/format.py]            (module [Format]),
    - [mapillary/controller/rules/verify.py] (module [Verify]),
    - [mapillary/controller/feature.py]      (module [Feature]),
    over a small model of the Python objects these functions handle
    (module [Py]).  Python values are untyped, so every function takes and
    returns a [value]; an exception is the [Err] branch of [result]. *)

From Stdlib Require Import ZArith List String Ascii Bool Lia.
From Stdlib Require Import DecimalString.
From Stdlib Require DecimalPos.
Import ListNotations.
Open Scope string_scope.
Open Scope Z_scope.

Set Warnings "-register-all".

(** ** Python objects *)

Module Py.

(** The JSON-like fragment of Python's objects.  A [dict] keeps its
    insertion order and has [str] keys, as every mapping of the three
    modules has.  Floats are left out; strings are sequences of code points
    below 256. *)
Inductive value : Type :=
| VNone
| VBool (b : bool)
| VInt (n : Z)
| VStr (s : string)
| VList (l : list value)
| VDict (d : list (string * value)).

Definition dict : Type := list (string * value).

(** Exceptions.  The first five are Python's own; the next three are the
    ones [verify.py] imports from [models.exceptions], with the keyword
    arguments they are built from; [MissingGeometryError] is the fourth error
    kind of the SDK; [ExternalError] stands for whatever a collaborator
    (HTTP client, tile decoder, ...) raises. *)
Inductive exn : Type :=
| KeyError (key : value)
| IndexError
| TypeError
| ValueError
| AttributeError
| InvalidKwargError (func key val options : value)
| ContradictingError (contradicts contradicted message : string)
| InvalidOptionError (param : string) (val : value) (options : list value)
| MissingGeometryError
| ExternalError (what : string).

Inductive result (A : Type) : Type :=
| Ok (a : A)
| Err (e : exn).
Arguments Ok {A} a.
Arguments Err {A} e.

Definition bind {A B} (r : result A) (k : A -> result B) : result B :=
  match r with
  | Ok a => k a
  | Err e => Err e
  end.

Notation "x <- r ;; k" := (bind r (fun x => k))
  (at level 61, r at next level, right associativity).

(** [for x in xs: s = body x s], stopping at the first exception. *)
Fixpoint for_each {X S} (xs : list X) (body : X -> S -> result S) (s : S)
  : result S :=
  match xs with
  | [] => Ok s
  | x :: rest => s' <- body x s ;; for_each rest body s'
  end.

(** [[f x for x in xs]]. *)
Fixpoint comprehension {X Y} (f : X -> result Y) (xs : list X)
  : result (list Y) :=
  match xs with
  | [] => Ok []
  | x :: rest => y <- f x ;; ys <- comprehension f rest ;; Ok (y :: ys)
  end.

(** *** Dictionaries *)

Fixpoint dict_get (d : dict) (k : string) : option value :=
  match d with
  | [] => None
  | (k', v) :: rest => if String.eqb k' k then Some v else dict_get rest k
  end.

Definition dict_mem (d : dict) (k : string) : bool :=
  match dict_get d k with Some _ => true | None => false end.

(** [d[k] = v]: an existing key keeps its place, a new one goes last. *)
Fixpoint dict_set (d : dict) (k : string) (v : value) : dict :=
  match d with
  | [] => [(k, v)]
  | (k', v') :: rest =>
      if String.eqb k' k then (k, v) :: rest
      else (k', v') :: dict_set rest k v
  end.

Fixpoint dict_del (d : dict) (k : string) : dict :=
  match d with
  | [] => []
  | (k', v') :: rest =>
      if String.eqb k' k then rest else (k', v') :: dict_del rest k
  end.

Definition dict_keys (d : dict) : list string := map fst d.

(** A dict display [{k1: v1, k2: v2, ...}]: the items are stored left to
    right. *)
Definition dict_of (items : list (string * value)) : dict :=
  fold_left (fun d kv => dict_set d (fst kv) (snd kv)) items [].

(** *** Strings *)

Fixpoint substringb (t s : string) : bool :=
  prefix t s ||
  match s with
  | EmptyString => false
  | String _ s' => substringb t s'
  end.

Fixpoint chars (s : string) : list string :=
  match s with
  | EmptyString => []
  | String c s' => String c EmptyString :: chars s'
  end.

(** *** Operators *)

Definition int_of_bool (b : bool) : Z := if b then 1 else 0.

(** [a == b].  [bool] is a subclass of [int]; two dicts are equal when they
    have the same items, in any order. *)
Fixpoint py_eq (a b : value) : bool :=
  match a, b with
  | VNone, VNone => true
  | VBool x, VBool y => Bool.eqb x y
  | VBool x, VInt n => int_of_bool x =? n
  | VInt m, VBool y => m =? int_of_bool y
  | VInt m, VInt n => m =? n
  | VStr s, VStr t => String.eqb s t
  | VList l, VList l' =>
      (fix go (l l' : list value) : bool :=
         match l, l' with
         | [], [] => true
         | x :: xs, y :: ys => py_eq x y && go xs ys
         | _, _ => false
         end) l l'
  | VDict d, VDict d' =>
      Nat.eqb (List.length d) (List.length d') &&
      (fix go (d : dict) : bool :=
         match d with
         | [] => true
         | (k, v) :: rest =>
             match dict_get d' k with
             | Some v' => py_eq v v'
             | None => false
             end && go rest
         end) d
  | _, _ => false
  end.

(** [a is None]. *)
Definition is_none (a : value) : bool :=
  match a with VNone => true | _ => false end.

(** [x in c]. *)
Definition py_in (x c : value) : result bool :=
  match c with
  | VDict d =>
      match x with
      | VStr k => Ok (dict_mem d k)
      | VList _ | VDict _ => Err TypeError     (* unhashable *)
      | _ => Ok false
      end
  | VList l => Ok (existsb (py_eq x) l)
  | VStr s =>
      match x with
      | VStr t => Ok (substringb t s)
      | _ => Err TypeError
      end
  | _ => Err TypeError                         (* not iterable *)
  end.

Definition py_not_in (x c : value) : result bool :=
  b <- py_in x c ;; Ok (negb b).

(** The position [i] of a sequence of length [len], counted from the end
    when negative. *)
Definition index_of (i : Z) (len : nat) : option nat :=
  let n := Z.of_nat len in
  if (0 <=? i) && (i <? n) then Some (Z.to_nat i)
  else if (i <? 0) && (0 <=? i + n) then Some (Z.to_nat (i + n))
  else None.

Definition seq_get {X} (l : list X) (i : Z) : result X :=
  match index_of i (List.length l) with
  | Some n =>
      match nth_error l n with
      | Some x => Ok x
      | None => Err IndexError
      end
  | None => Err IndexError
  end.

(** [o[k]]. *)
Definition py_getitem (o k : value) : result value :=
  match o with
  | VDict d =>
      match k with
      | VStr s =>
          match dict_get d s with
          | Some v => Ok v
          | None => Err (KeyError k)
          end
      | VList _ | VDict _ => Err TypeError     (* unhashable *)
      | _ => Err (KeyError k)
      end
  | VList l =>
      match k with
      | VInt i => seq_get l i
      | VBool b => seq_get l (int_of_bool b)
      | _ => Err TypeError
      end
  | VStr s =>
      match k with
      | VInt i => c <- seq_get (chars s) i ;; Ok (VStr c)
      | VBool b => c <- seq_get (chars s) (int_of_bool b) ;; Ok (VStr c)
      | _ => Err TypeError
      end
  | _ => Err TypeError                         (* not subscriptable *)
  end.

Fixpoint list_set {X} (l : list X) (n : nat) (x : X) : list X :=
  match l, n with
  | [], _ => []
  | _ :: rest, O => x :: rest
  | y :: rest, S n' => y :: list_set rest n' x
  end.

(** [o[k] = v], as the object [o] after the store. *)
Definition py_setitem (o k v : value) : result value :=
  match o with
  | VDict d =>
      match k with
      | VStr s => Ok (VDict (dict_set d s v))
      | _ => Err TypeError
      end
  | VList l =>
      let store (i : Z) :=
        match index_of i (List.length l) with
        | Some n => Ok (VList (list_set l n v))
        | None => Err IndexError
        end in
      match k with
      | VInt i => store i
      | VBool b => store (int_of_bool b)
      | _ => Err TypeError
      end
  | _ => Err TypeError
  end.

(** [o[k1][k2] = v], as the object [o] after the store. *)
Definition py_setitem2 (o k1 k2 v : value) : result value :=
  inner <- py_getitem o k1 ;;
  inner' <- py_setitem inner k2 v ;;
  py_setitem o k1 inner'.

(** [del o[k]] for a key [k] that is a string or [None], as the object
    [o] after the deletion. *)
Definition py_delitem (o k : value) : result value :=
  match o, k with
  | VDict d, VStr s =>
      if dict_mem d s then Ok (VDict (dict_del d s)) else Err (KeyError k)
  | VDict _, VNone => Err (KeyError k)
  | _, _ => Err TypeError
  end.

(** [o.keys()]. *)
Definition py_keys (o : value) : result (list string) :=
  match o with
  | VDict d => Ok (dict_keys d)
  | _ => Err AttributeError
  end.

(** The items [for x in o] visits. *)
Definition py_iter (o : value) : result (list value) :=
  match o with
  | VList l => Ok l
  | VDict d => Ok (map VStr (dict_keys d))
  | VStr s => Ok (map VStr (chars s))
  | _ => Err TypeError
  end.

(** [a < n] and [a > n] for an [int] literal [n]. *)
Definition py_lt_int (a : value) (n : Z) : result bool :=
  match a with
  | VInt m => Ok (m <? n)
  | VBool b => Ok (int_of_bool b <? n)
  | _ => Err TypeError
  end.

Definition py_gt_int (a : value) (n : Z) : result bool :=
  match a with
  | VInt m => Ok (m >? n)
  | VBool b => Ok (int_of_bool b >? n)
  | _ => Err TypeError
  end.

(** [int(a)].  A string is stripped of white space (the ASCII characters
    9 to 13 and 32, and the two spaces 133 and 160 above ASCII), may start
    with a sign and may separate its decimal digits by single underscores;
    it has at most [max_str_digits] digits. *)
Definition is_space (c : ascii) : bool :=
  let n := N_of_ascii c in
  (((9 <=? n) && (n <=? 13)) || (n =? 32) || (n =? 133) || (n =? 160))%N.

(** The default limit of the conversions between [int] and [str]. *)
Definition max_str_digits : nat := 4300.

Fixpoint lstrip (s : string) : string :=
  match s with
  | String c s' => if is_space c then lstrip s' else s
  | EmptyString => EmptyString
  end.

Fixpoint rstrip (s : string) : string :=
  match s with
  | EmptyString => EmptyString
  | String c s' =>
      match rstrip s' with
      | EmptyString => if is_space c then EmptyString else String c EmptyString
      | r => String c r
      end
  end.

Definition digit_of (c : ascii) : option Z :=
  let n := N_of_ascii c in
  if ((48 <=? n) && (n <=? 57))%N then Some (Z.of_N n - 48) else None.

Fixpoint parse_digits (s : string) (acc : Z) (after_digit : bool)
  : option Z :=
  match s with
  | EmptyString => if after_digit then Some acc else None
  | String c s' =>
      match digit_of c with
      | Some d => parse_digits s' (10 * acc + d) true
      | None =>
          if Ascii.eqb c "_"%char && after_digit
          then parse_digits s' acc false
          else None
      end
  end.

Fixpoint count_digits (s : string) : nat :=
  match s with
  | EmptyString => O
  | String c s' =>
      match digit_of c with
      | Some _ => S (count_digits s')
      | None => count_digits s'
      end
  end.

Definition parse_unsigned (s : string) : option Z :=
  if Nat.leb (count_digits s) max_str_digits then parse_digits s 0 false
  else None.

Definition parse_int (s : string) : option Z :=
  match rstrip (lstrip s) with
  | String "-"%char s' => option_map Z.opp (parse_unsigned s')
  | String "+"%char s' => parse_unsigned s'
  | s' => parse_unsigned s'
  end.

Definition py_int (a : value) : result Z :=
  match a with
  | VInt n => Ok n
  | VBool b => Ok (int_of_bool b)
  | VStr s =>
      match parse_int s with
      | Some n => Ok n
      | None => Err ValueError
      end
  | _ => Err TypeError
  end.

(** *** [json.dumps], with its default separators and [ensure_ascii] *)

Definition hex_digit (n : N) : ascii :=
  ascii_of_N (if (n <? 10)%N then 48 + n else 87 + n).

Definition dquote : ascii := ascii_of_N 34.

Definition json_escape_char (c : ascii) : string :=
  let n := N_of_ascii c in
  if (n =? 34)%N then String "\"%char (String dquote EmptyString)
  else if (n =? 92)%N then "\\"
  else if (n =? 10)%N then "\n"
  else if (n =? 13)%N then "\r"
  else if (n =? 9)%N then "\t"
  else if (n =? 8)%N then "\b"
  else if (n =? 12)%N then "\f"
  else if ((32 <=? n) && (n <=? 126))%N then String c EmptyString
  else "\u00" ++ String (hex_digit (n / 16))
                    (String (hex_digit (n mod 16)) EmptyString).

Fixpoint json_escape (s : string) : string :=
  match s with
  | EmptyString => EmptyString
  | String c s' => json_escape_char c ++ json_escape s'
  end.

Definition json_string (s : string) : string :=
  String dquote (json_escape s ++ String dquote EmptyString).

Definition string_of_Z (n : Z) : string :=
  NilZero.string_of_int (Z.to_int n).

Fixpoint json_dumps (v : value) : string :=
  match v with
  | VNone => "null"
  | VBool true => "true"
  | VBool false => "false"
  | VInt n => string_of_Z n
  | VStr s => json_string s
  | VList l =>
      "[" ++
      (fix items (l : list value) : string :=
         match l with
         | [] => EmptyString
         | [x] => json_dumps x
         | x :: rest => json_dumps x ++ ", " ++ items rest
         end) l
      ++ "]"
  | VDict d =>
      "{" ++
      (fix items (d : dict) : string :=
         match d with
         | [] => EmptyString
         | [(k, x)] => json_string k ++ ": " ++ json_dumps x
         | (k, x) :: rest =>
             json_string k ++ ": " ++ json_dumps x ++ ", " ++ items rest
         end) d
      ++ "}"
  end.

(** *** [json.loads], on the texts without floats

    The decoder returns [None] when [json.loads] raises, and also when the
    text holds what [value] does not have: a number with a fraction or an
    exponent, a constant such as [NaN], a code point above 255. *)












(** [s] without its prefix [p]. *)
Fixpoint strip_prefix (p s : string) : option string :=
  match p with
  | EmptyString => Some s
  | String a p' =>
      match s with
      | EmptyString => None
      | String b s' => if Ascii.eqb a b then strip_prefix p' s' else None
      end
  end.












End Py.

(** ** [mapillary/utils/format.py] *)

Module Format.
Import Py.

Definition feature_to_geojson (json_data : value) : result value :=
  all_keys <- py_keys json_data ;;
  let keys :=
    filter (fun key => negb (py_eq (VStr key) (VStr "geometry"))) all_keys in
  let feature :=
    VDict (dict_of [("type", VStr "Feature");
                    ("geometry", VDict (dict_of []));
                    ("properties", VDict (dict_of []))]) in
  geometry <- py_getitem json_data (VStr "geometry") ;;
  feature <- py_setitem feature (VStr "geometry") geometry ;;
  for_each keys
    (fun key feature =>
       v <- py_getitem json_data (VStr key) ;;
       py_setitem2 feature (VStr "properties") (VStr key) v)
    feature.

(** The body of the two loops of [join_geojson_with_keys] for one pair of
    features; the result is [from_features] after the body. *)
Definition join_pair (geojson_src_key geojson_dest_key : value)
    (into_features from_features : value) : result value :=
  into_properties <- py_getitem into_features (VStr "properties") ;;
  no_dest_key <- py_not_in geojson_dest_key into_properties ;;
  skip <- (if no_dest_key then Ok true
           else from_properties <-
                  py_getitem from_features (VStr "properties") ;;
                py_not_in geojson_src_key from_properties) ;;
  if skip then Ok from_features
  else
    from_properties <- py_getitem from_features (VStr "properties") ;;
    src_id <- py_getitem from_properties geojson_src_key ;;
    src_int <- py_int src_id ;;
    into_properties <- py_getitem into_features (VStr "properties") ;;
    dest_id <- py_getitem into_properties geojson_dest_key ;;
    dest_int <- py_int dest_id ;;
    if src_int =? dest_int then
      from_properties <- py_getitem from_features (VStr "properties") ;;
      old_keys <- py_keys from_properties ;;
      let old_properties := VList (map VStr old_keys) in
      into_properties <- py_getitem into_features (VStr "properties") ;;
      new_properties <- py_keys into_properties ;;
      for_each new_properties
        (fun new_property from_features =>
           is_new <- py_not_in (VStr new_property) old_properties ;;
           if is_new then
             wrong <- py_getitem old_properties (VStr "properties") ;;
             v <- py_getitem wrong (VStr new_property) ;;
             py_setitem2 from_features
               (VStr "properties") (VStr new_property) v
           else Ok from_features)
        from_features
    else Ok from_features.

(** The features of [geojson_src] are modified in place by the source; here
    each one is threaded through the inner loop and the list is stored back
    into [geojson_src].  When [geojson_src["features"]] is not a list its
    items are strings, which nothing can modify. *)
Definition join_geojson_with_keys
    (geojson_src geojson_src_key geojson_dest geojson_dest_key : value)
  : result value :=
  src_features <- py_getitem geojson_src (VStr "features") ;;
  items <- py_iter src_features ;;
  items' <- comprehension
    (fun from_features =>
       dest_features <- py_getitem geojson_dest (VStr "features") ;;
       dest_items <- py_iter dest_features ;;
       for_each dest_items
         (join_pair geojson_src_key geojson_dest_key) from_features)
    items ;;
  match src_features with
  | VList _ => py_setitem geojson_src (VStr "features") (VList items')
  | _ => Ok geojson_src
  end.


Definition merged_features_list_to_geojson (features_list : value) : value :=
  VStr (json_dumps (VDict (dict_of [("type", VStr "FeatureCollection");
                                    ("features", features_list)]))).

(** [feature[name] if name in feature else None]. *)
Definition field_or_none (feature : value) (name : string) : result value :=
  present <- py_in (VStr name) feature ;;
  if present then py_getitem feature (VStr name) else Ok VNone.

(** One item of the list comprehension of
    [detection_features_to_geojson]. *)
Definition detection_feature (feature : value) : result value :=
  has_image <- py_in (VStr "image") feature ;;
  geometry <-
    (if has_image then
       image <- py_getitem feature (VStr "image") ;;
       image_geometry <- py_getitem image (VStr "geometry") ;;
       coordinates <- py_getitem image_geometry (VStr "coordinates") ;;
       Ok (VDict (dict_of [("type", VStr "Point");
                           ("coordinates", coordinates)]))
     else Ok (VDict (dict_of []))) ;;
  image_in_literal <- py_in (VStr "image") (VStr "feature") ;;
  image_id <-
    (if image_in_literal then
       image <- py_getitem feature (VStr "image") ;;
       py_getitem image (VStr "id")
     else Ok VNone) ;;
  created_at <- field_or_none feature "created_at" ;;
  pixel_geometry <- field_or_none feature "geometry" ;;
  val <- field_or_none feature "value" ;;
  id <- py_getitem feature (VStr "id") ;;
  Ok (VDict (dict_of
    [("type", VStr "Feature");
     ("geometry", geometry);
     ("properties",
      VDict (dict_of [("image_id", image_id);
                      ("created_at", created_at);
                      ("pixel_geometry", pixel_geometry);
                      ("value", val);
                      ("id", id)]))])).

(** The inner clean-up loop: [_property] ranges over the keys of
    [_feature["properties"]]. *)
Definition drop_none_properties (_feature : value) : result value :=
  properties <- py_getitem _feature (VStr "properties") ;;
  names <- py_iter properties ;;
  for_each names
    (fun _property _feature =>
       if is_none _property then
         properties <- py_getitem _feature (VStr "properties") ;;
         properties' <- py_delitem properties _property ;;
         py_setitem _feature (VStr "properties") properties'
       else Ok _feature)
    _feature.

Definition detection_features_to_geojson (feature_list : value)
  : result value :=
  items <- py_iter feature_list ;;
  features <- comprehension detection_feature items ;;
  let resulting_geojson :=
    VDict (dict_of [("type", VStr "FeatureCollection");
                    ("features", VList features)]) in
  built <- py_getitem resulting_geojson (VStr "features") ;;
  built_items <- py_iter built ;;
  cleaned <- comprehension drop_none_properties built_items ;;
  py_setitem resulting_geojson (VStr "features") (VList cleaned).

(** A pair of a source and a destination feature for which the body of
    the loops of [join_geojson_with_keys] has nothing to copy: a join key is
    missing, the two ids differ, or every property of the destination
    feature is already a property of the source feature. *)
Definition nothing_to_copy (src_key dest_key : string)
    (from_features into_features : value) : Prop :=
  exists into_properties,
    py_getitem into_features (VStr "properties") = Ok (VDict into_properties)
    /\
    (dict_get into_properties dest_key = None \/
     exists from_properties,
       py_getitem from_features (VStr "properties")
       = Ok (VDict from_properties) /\
       (dict_get from_properties src_key = None \/
        exists src_id dest_id m n,
          dict_get from_properties src_key = Some src_id /\
          dict_get into_properties dest_key = Some dest_id /\
          py_int src_id = Ok m /\ py_int dest_id = Ok n /\
          (m <> n \/
           forall k, In k (dict_keys into_properties) ->
                     In k (dict_keys from_properties)))).

(** [v] when the attribute is there, [None] otherwise. *)
Definition or_none (o : option value) : value :=
  match o with
  | Some v => v
  | None => VNone
  end.

Section Polygon.
Context {G : Type}.

(** The constructor of the class [GeoJSON] of [models.geojson], which is
    not part of this module: it takes the mapping and returns the object
    or raises. *)
Variable GeoJSON : value -> result G.

Definition geojson_to_polgyon (geojson : value) : result G :=
  features <- py_getitem geojson (VStr "features") ;;
  items <- py_iter features ;;
  ring <- comprehension
            (fun feature =>
               geometry <- py_getitem feature (VStr "geometry") ;;
               py_getitem geometry (VStr "coordinates"))
            items ;;
  GeoJSON
    (VDict (dict_of
       [("type", VStr "FeatureCollection");
        ("features",
         VList
           [VDict (dict_of
              [("type", VStr "Feature");
               ("properties", VDict (dict_of []));
               ("geometry",
                VDict (dict_of [("type", VStr "Polygon");
                                ("coordinates", VList [VList ring])]))])])])).
End Polygon.

(** A detection record as the endpoint returns it: a mapping with an [id]
    and, when it has an [image], with the coordinates of the geometry of
    the image. *)
Definition detection_record (record : value) : Prop :=
  exists d id,
    record = VDict d /\
    dict_get d "id" = Some id /\
    (dict_get d "image" = None \/
     exists image geometry coordinates,
       dict_get d "image" = Some (VDict image) /\
       dict_get image "geometry" = Some (VDict geometry) /\
       dict_get geometry "coordinates" = Some coordinates).

(** The record of the docstring of [detection_features_to_geojson], with
    integer coordinates, and what the function returns on it. *)
Definition sample_detection : value :=
  VDict [("created_at", VStr "2021-05-20T17:49:01+0000");
         ("geometry", VStr "GjUKBm1weS1vchIVEgIAABgDIg0JhiekKBoqAABKKQAPGgR0eXBlIgkKB3BvbHlnb24ogCB4AQ==");
         ("image",
          VDict [("geometry",
                  VDict [("type", VStr "Point");
                         ("coordinates", VList [VInt (-97); VInt 30])]);
                 ("id", VStr "1933525276802129")]);
         ("value", VStr "regulatory--no-parking--g2");
         ("id", VStr "1942105415944115")].

Definition sample_detection_output : value :=
  VDict
    [("type", VStr "FeatureCollection");
     ("features",
      VList
        [VDict
           [("type", VStr "Feature");
            ("geometry",
             VDict [("type", VStr "Point");
                    ("coordinates", VList [VInt (-97); VInt 30])]);
            ("properties",
             VDict [("image_id", VNone);
                    ("created_at", VStr "2021-05-20T17:49:01+0000");
                    ("pixel_geometry", VStr "GjUKBm1weS1vchIVEgIAABgDIg0JhiekKBoqAABKKQAPGgR0eXBlIgkKB3BvbHlnb24ogCB4AQ==");
                    ("value", VStr "regulatory--no-parking--g2");
                    ("id", VStr "1942105415944115")])]])].

End Format.

(** ** [mapillary/controller/rules/verify.py] *)

Module Verify.
Import Py.

Definition kwarg_check (kwargs options callback : value) : result value :=
  _ <- (if negb (is_none kwargs) then
          keys <- py_keys kwargs ;;
          for_each keys
            (fun key (_ : unit) =>
               unknown <- py_not_in (VStr key) options ;;
               if unknown then
                 v <- py_getitem kwargs (VStr key) ;;
                 Err (InvalidKwargError callback (VStr key) v options)
               else Ok tt)
            tt
        else Ok tt) ;;
  has_min <- py_in (VStr "min_date") kwargs ;;
  has_date <- (if has_min then Ok true
               else py_in (VStr "max_date") kwargs) ;;
  contradicting <- (if has_date then py_in (VStr "daterange") kwargs
                    else Ok false) ;;
  if contradicting then
    Err (ContradictingError "daterange" "min_date/max_date"
           ("Using either or both of min_date and max_date, or use daterange, "
            ++ "but not both at the same time"))
  else
    has_zoom <- py_in (VStr "zoom") kwargs ;;
    bad_zoom <-
      (if has_zoom then
         zoom <- py_getitem kwargs (VStr "zoom") ;;
         below <- py_lt_int zoom 14 ;;
         if below then Ok true
         else zoom <- py_getitem kwargs (VStr "zoom") ;; py_gt_int zoom 17
       else Ok false) ;;
    if bad_zoom then
      zoom <- py_getitem kwargs (VStr "zoom") ;;
      Err (InvalidOptionError "zoom" zoom [VInt 14; VInt 15; VInt 16; VInt 17])
    else
      has_pano <- py_in (VStr "is_pano") kwargs ;;
      bad_pano <-
        (if has_pano then
           is_pano <- py_getitem kwargs (VStr "is_pano") ;;
           py_not_in is_pano (VList [VStr "pano"; VStr "flat"; VStr "all"])
         else Ok false) ;;
      if bad_pano then
        is_pano <- py_getitem kwargs (VStr "is_pano") ;;
        Err (InvalidOptionError "is_pano" is_pano
               [VStr "pano"; VStr "flat"; VStr "all"])
      else Ok (VBool true).

Definition image_check (kwargs : value) : result value :=
  kwarg_check kwargs
    (VList [VStr "min_date"; VStr "max_date"; VStr "daterange";
            VStr "radius"; VStr "image_type"; VStr "org_id"; VStr "fields"])
    (VStr "image_check").

Definition thumbnail_size_check (thumbnail_size : value) : result value :=
  ok <- py_in thumbnail_size (VList [VInt 256; VInt 1024; VInt 2048]) ;;
  if ok then Ok (VBool true)
  else Err (InvalidOptionError "thumbnail_size" thumbnail_size
              [VInt 256; VInt 1024; VInt 2048]).

Definition shape_bbox_check (kwargs : value) : result value :=
  kwarg_check kwargs
    (VList [VStr "max_date"; VStr "min_date"; VStr "is_pano"])
    (VStr "shape_bbox_check").

End Verify.

(** ** [mapillary/controller/feature.py] *)

Module Feature.
Import Py Format.

(** A tile of [mercantile.tiles] and a response of the HTTP client. *)
Record Tile : Type := { tile_x : Z; tile_y : Z; tile_z : Z }.
Record Response : Type := { content : value }.

(** The collaborators the controller calls.  None of them is part of the
    three modules: the validator [utils.verify.points_traffic_signs_check],
    the HTTP [Client], [mercantile.tiles], the two URL builders of
    [VectorTiles], the decoder [vt_bytes_to_geojson] and the filter
    [pipeline].  Each call is answered by the environment. *)
Inductive call : Type :=
| points_traffic_signs_check (kwargs : value)
| Client
| mercantile_tiles (west south east north : value) (zooms : Z)
| get_map_feature_point (x y z : Z)
| get_map_feature_traffic_signs (x y z : Z)
| client_get (url : value)
| vt_bytes_to_geojson (tile_content : value) (x y z : Z)
| pipeline (data components : value).

Definition answer (c : call) : Type :=
  match c with
  | Client => unit
  | mercantile_tiles _ _ _ _ _ => list Tile
  | client_get _ => Response
  | _ => value
  end.

(** A computation that calls collaborators: it returns, raises, or makes a
    call and goes on with the answer. *)
Inductive prog (A : Type) : Type :=
| Ret (a : A)
| Raise (e : exn)
| Call (c : call) (k : answer c -> prog A).
Arguments Ret {A} a.
Arguments Raise {A} e.
Arguments Call {A} c k.

Fixpoint pbind {A B} (p : prog A) (f : A -> prog B) : prog B :=
  match p with
  | Ret a => f a
  | Raise e => Raise e
  | Call c k => Call c (fun r => pbind (k r) f)
  end.

Notation "x <~ p ;; k" := (pbind p (fun x => k))
  (at level 61, p at next level, right associativity).

Definition do_call (c : call) : prog (answer c) := Call c Ret.

Definition lift {A} (r : result A) : prog A :=
  match r with
  | Ok a => Ret a
  | Err e => Raise e
  end.

Fixpoint for_each_prog {X S} (xs : list X) (body : X -> S -> prog S) (s : S)
  : prog S :=
  match xs with
  | [] => Ret s
  | x :: rest => s' <~ body x s ;; for_each_prog rest body s'
  end.

(** The [components] list the controller hands to [pipeline]. *)
Definition components (bbox filter_values filters : value) : result value :=
  let by_values :=
    if negb (is_none filter_values) then
      VDict (dict_of [("filter", VStr "filter_values");
                      ("values", filter_values);
                      ("property", VStr "value")])
    else VDict (dict_of []) in
  let in_bbox :=
    VDict (dict_of [("filter", VStr "features_in_bounding_box");
                    ("bbox", bbox)]) in
  at_date <- py_getitem filters (VStr "existed_at") ;;
  by_existed_at <-
    (if negb (is_none at_date) then
       existed_at <- py_getitem filters (VStr "existed_at") ;;
       Ok (VDict (dict_of [("filter", VStr "existed_at");
                           ("existed_at", existed_at)]))
     else Ok (VDict (dict_of []))) ;;
  before_date <- py_getitem filters (VStr "existed_before") ;;
  by_existed_before <-
    (if negb (is_none before_date) then
       existed_before <- py_getitem filters (VStr "existed_before") ;;
       Ok (VDict (dict_of [("filter", VStr "existed_before");
                           ("existed_before", existed_before)]))
     else Ok (VDict (dict_of []))) ;;
  Ok (VList [by_values; in_bbox; by_existed_at; by_existed_before]).

(** The body of [for tile in tiles]; [filtered_features] is the list being
    extended. *)
Definition tile_step (bbox filter_values filters layer : value)
    (tile : Tile) (filtered_features : list value) : prog (list value) :=
  url <~ (if py_eq layer (VStr "points")
          then do_call (get_map_feature_point
                          (tile_x tile) (tile_y tile) (tile_z tile))
          else do_call (get_map_feature_traffic_signs
                          (tile_x tile) (tile_y tile) (tile_z tile))) ;;
  res <~ do_call (client_get url) ;;
  data <~ do_call (vt_bytes_to_geojson (content res)
                     (tile_x tile) (tile_y tile) (tile_z tile)) ;;
  stages <~ lift (components bbox filter_values filters) ;;
  kept <~ do_call (pipeline data stages) ;;
  kept_items <~ lift (py_iter kept) ;;
  Ret (filtered_features ++ kept_items)%list.

Definition get_map_features_in_bbox_controller
    (bbox filter_values filters layer : value) : prog value :=
  filters <~ do_call (points_traffic_signs_check filters) ;;
  client <~ do_call Client ;;
  west <~ lift (py_getitem bbox (VStr "west")) ;;
  south <~ lift (py_getitem bbox (VStr "south")) ;;
  east <~ lift (py_getitem bbox (VStr "east")) ;;
  north <~ lift (py_getitem bbox (VStr "north")) ;;
  tiles <~ do_call (mercantile_tiles west south east north 14) ;;
  filtered_features <~
    for_each_prog tiles (tile_step bbox filter_values filters layer) [] ;;
  Ret (merged_features_list_to_geojson (VList filtered_features)).

(** *** Executions *)

(** What the environment did with a call. *)
Inductive event : Type :=
| Returned (c : call) (r : answer c)
| Raised (c : call) (e : exn).

Definition call_of (ev : event) : call :=
  match ev with
  | Returned c _ => c
  | Raised c _ => c
  end.

Inductive outcome (A : Type) : Type :=
| Done (a : A)
| Failed (e : exn).
Arguments Done {A} a.
Arguments Failed {A} e.

(** [exec p tr o]: [p] can run with the calls of [tr], in this order, and
    end in [o].  The controller has no [try]: an exception raised by a
    collaborator ends the run. *)
Inductive exec {A : Type} : prog A -> list event -> outcome A -> Prop :=
| exec_ret a : exec (Ret a) [] (Done a)
| exec_raise e : exec (Raise e) [] (Failed e)
| exec_returned c k r tr o :
    exec (k r) tr o -> exec (Call c k) (Returned c r :: tr) o
| exec_raised c k e : exec (Call c k) [Raised c e] (Failed e).

(** An environment with a state of its own, and the run it produces. *)
Definition handler (W : Type) : Type :=
  forall c : call, W -> W * result (answer c).

Fixpoint run {W A} (h : handler W) (p : prog A) (w : W)
  : list event * outcome A :=
  match p with
  | Ret a => ([], Done a)
  | Raise e => ([], Failed e)
  | Call c k =>
      match h c w with
      | (w', Ok r) =>
          let (tr, o) := run h (k r) w' in (Returned c r :: tr, o)
      | (_, Err e) => ([Raised c e], Failed e)
      end
  end.

Definition is_validation (c : call) : bool :=
  match c with points_traffic_signs_check _ => true | _ => false end.

Definition is_tile_fetch (c : call) : bool :=
  match c with client_get _ => true | _ => false end.

Definition failed (ev : event) : bool :=
  match ev with Raised _ _ => true | Returned _ _ => false end.

(** A sample environment: the validator normalises the filters to both
    keys, the box is covered by one tile, the tile holds two features and
    the pipeline keeps the first one. *)
Definition sample_features : list value :=
  [VDict [("type", VStr "Feature");
          ("geometry", VDict [("type", VStr "Point");
                              ("coordinates", VList [VInt 5; VInt 5])]);
          ("properties", VDict [("value", VStr "object--sign")])];
   VDict [("type", VStr "Feature");
          ("geometry", VDict [("type", VStr "Point");
                              ("coordinates", VList [VInt 50; VInt 50])]);
          ("properties", VDict [("value", VStr "object--sign")])]].

Definition sample_handler : handler unit :=
  fun c w =>
    (w,
     match c return result (answer c) with
     | points_traffic_signs_check kwargs =>
         match kwargs with
         | VDict d =>
             if dict_mem d "zoom" then
               Err (InvalidKwargError (VStr "points_traffic_signs_check")
                      (VStr "zoom") VNone (VList []))
             else
               Ok (VDict [("existed_at",
                           match dict_get d "existed_at" with
                           | Some v => v | None => VNone end);
                          ("existed_before",
                           match dict_get d "existed_before" with
                           | Some v => v | None => VNone end)])
         | _ => Ok (VDict [("existed_at", VNone); ("existed_before", VNone)])
         end
     | Client => Ok tt
     | mercantile_tiles _ _ _ _ zooms =>
         Ok [{| tile_x := 8; tile_y := 8; tile_z := zooms |}]
     | get_map_feature_point _ _ _ => Ok (VStr "https://tiles/point")
     | get_map_feature_traffic_signs _ _ _ => Ok (VStr "https://tiles/sign")
     | client_get _ => Ok {| content := VStr "bytes" |}
     | vt_bytes_to_geojson _ _ _ _ =>
         Ok (VDict [("type", VStr "FeatureCollection");
                    ("features", VList sample_features)])
     | pipeline _ _ => Ok (VList (firstn 1 sample_features))
     end).

Definition sample_bbox : value :=
  VDict [("west", VInt (-10)); ("south", VInt (-10));
         ("east", VInt 10); ("north", VInt 10)].

Definition sample_filters : value := VDict [("existed_at", VInt 1422984049000)].

Definition sample_run : list event * outcome value :=
  run sample_handler
    (get_map_features_in_bbox_controller
       sample_bbox VNone sample_filters (VStr "points"))
    tt.

Definition sample_data : value :=
  VDict [("type", VStr "FeatureCollection");
         ("features", VList sample_features)].

Definition sample_stages : value :=
  VList [VDict [];
         VDict [("filter", VStr "features_in_bounding_box");
                ("bbox", sample_bbox)];
         VDict [("filter", VStr "existed_at");
                ("existed_at", VInt 1422984049000)];
         VDict []].

(** Every call that [p] can make satisfies [P]. *)
Fixpoint every_call {A} (P : call -> Prop) (p : prog A) : Prop :=
  match p with
  | Ret _ => True
  | Raise _ => True
  | Call c k => P c /\ forall r, every_call P (k r)
  end.

(** The stage list in the words of the specification: a stage that is
    present is its descriptor, a stage that is absent is the empty
    descriptor. *)
Definition stage (present : bool) (descriptor : dict) : value :=
  if present then VDict descriptor else VDict [].

Definition spec_stage_list
    (bbox filter_values existed_at existed_before : value) : value :=
  VList
    [stage (negb (is_none filter_values))
       [("filter", VStr "filter_values"); ("values", filter_values);
        ("property", VStr "value")];
     stage true
       [("filter", VStr "features_in_bounding_box"); ("bbox", bbox)];
     stage (negb (is_none existed_at))
       [("filter", VStr "existed_at"); ("existed_at", existed_at)];
     stage (negb (is_none existed_before))
       [("filter", VStr "existed_before");
        ("existed_before", existed_before)]].

(** What a call made after the validation has to satisfy: it is not a
    validation, and when it is a call of [pipeline] its stage list is the
    one [components] builds from the validated filters. *)
Definition tile_call (bbox filter_values validated : value) (c : call)
  : Prop :=
  is_validation c = false /\
  forall data stages,
    c = pipeline data stages ->
    components bbox filter_values validated = Ok stages.

(** The events of one tile whose four calls return: the URL builder of
    the layer, the HTTP request, the decoder and the pipeline. *)
Definition url_event (layer : value) (tile : Tile) (url : value) : event :=
  if py_eq layer (VStr "points")
  then Returned (get_map_feature_point
                   (tile_x tile) (tile_y tile) (tile_z tile)) url
  else Returned (get_map_feature_traffic_signs
                   (tile_x tile) (tile_y tile) (tile_z tile)) url.

Definition tile_events (layer : value) (tile : Tile)
    (url : value) (res : Response) (data stages kept : value) : list event :=
  [url_event layer tile url;
   Returned (client_get url) res;
   Returned (vt_bytes_to_geojson (content res)
               (tile_x tile) (tile_y tile) (tile_z tile)) data;
   Returned (pipeline data stages) kept].

(** [tiles_run ... tiles tr items]: [tr] is made of the events of the
    tiles, tile after tile, every pipeline call has the stage list of
    [components] and [items] are the features the pipeline calls returned,
    in this order. *)
Inductive tiles_run (bbox filter_values validated layer : value)
  : list Tile -> list event -> list value -> Prop :=
| tiles_run_nil : tiles_run bbox filter_values validated layer [] [] []
| tiles_run_cons tile tiles url res data stages kept items tr rest :
    components bbox filter_values validated = Ok stages ->
    py_iter kept = Ok items ->
    tiles_run bbox filter_values validated layer tiles tr rest ->
    tiles_run bbox filter_values validated layer (tile :: tiles)
      (tile_events layer tile url res data stages kept ++ tr)%list
      (items ++ rest)%list.

(** A tile has been fetched and decoded. *)
Definition decoded (ev : event) : bool :=
  match ev with
  | Returned (vt_bytes_to_geojson _ _ _ _) _ => true
  | _ => false
  end.

(** What holds of the events and the outcome of the tile loop when the
    stage list cannot be built and [components] raises [e]: the loop fails,
    it makes no pipeline call, and it fails with [e] once a tile is
    decoded. *)
Definition stopped (e : exn) (tr : list event) (o : outcome (list value))
  : Prop :=
  (exists e', o = Failed e') /\
  Forall (fun ev => forall data stages, call_of ev <> pipeline data stages)
    tr /\
  (forall ev, In ev tr -> decoded ev = true -> o = Failed e).

(** What the validation returned, for the event of a validation. *)
Definition validated_of (ev : event) : option value :=
  match ev with
  | Returned (points_traffic_signs_check _) validated => Some validated
  | _ => None
  end.

(** An environment like [sample_handler] whose validator returns the
    filters as they are. *)
Definition lenient_handler : handler unit :=
  fun c w =>
    match c return unit * result (answer c) with
    | points_traffic_signs_check kwargs => (w, Ok kwargs)
    | c' => sample_handler c' w
    end.

Definition lenient_run : list event * outcome value :=
  run lenient_handler
    (get_map_features_in_bbox_controller
       sample_bbox VNone (VDict []) (VStr "traffic_signs"))
    tt.

Section FeatureFromKey.

(** [utils.verify.valid_id(id, image)] and
    [EntityAdapter().fetch_map_feature(map_feature_id, fields)], which are
    not part of this module. *)
Variable valid_id : value -> value -> result value.
Variable fetch_map_feature : value -> value -> result value.

End FeatureFromKey.

End Feature.

(** * Properties *)

Import Py.

(** ** The result monad and dictionaries *)

Section Monad.
Context {A B : Type}.

Lemma bind_ok (r : result A) (k : A -> result B) (b : B) :
  bind r k = Ok b -> exists a, r = Ok a /\ k a = Ok b.
Proof.
  destruct r as [a | e]; simpl; intros H.
  - exists a; split; [reflexivity | exact H].
  - discriminate H.
Qed.

Lemma bind_of_ok (r : result A) (k : A -> result B) (a : A) :
  r = Ok a -> bind r k = k a.
Proof. intros ->; reflexivity. Qed.

Lemma bind_of_err (r : result A) (k : A -> result B) (e : exn) :
  r = Err e -> bind r k = Err e.
Proof. intros ->; reflexivity. Qed.
End Monad.

(** Takes the equation [bind r k = Ok b] apart. *)
Tactic Notation "bind_inv" hyp(H) "as" ident(a) ident(Ha) :=
  apply bind_ok in H; destruct H as (a & Ha & H).

(** A loop whose body never changes the state leaves it as it was. *)
Lemma for_each_unchanged {X S} (body : X -> S -> result S) (xs : list X) :
  (forall x s s', In x xs -> body x s = Ok s' -> s' = s) ->
  forall s s', for_each xs body s = Ok s' -> s' = s.
Proof.
  induction xs as [| x rest IH]; simpl; intros Hbody s s' H.
  - now inversion H.
  - bind_inv H as s1 Hs1. apply Hbody in Hs1; [subst s1 | now left].
    apply IH; [| exact H].
    intros y t t' Hy Hb. apply (Hbody y t t'); [now right | exact Hb].
Qed.

Lemma for_each_all_ok {X S} (body : X -> S -> result S) (xs : list X) (s : S) :
  (forall x, In x xs -> body x s = Ok s) -> for_each xs body s = Ok s.
Proof.
  induction xs as [| x rest IH]; simpl; intros Hbody; [reflexivity |].
  rewrite Hbody by now left. simpl. apply IH. intros; apply Hbody; now right.
Qed.

Lemma comprehension_Forall2 {X Y} (f : X -> result Y) (xs : list X) :
  forall ys, comprehension f xs = Ok ys ->
             Forall2 (fun x y => f x = Ok y) xs ys.
Proof.
  induction xs as [| x rest IH]; simpl; intros ys H.
  - inversion H; constructor.
  - bind_inv H as y Hy. bind_inv H as ys' Hys.
    inversion H; subst. constructor; auto.
Qed.

Lemma Forall2_comprehension {X Y} (f : X -> result Y) (xs : list X) (ys : list Y) :
  Forall2 (fun x y => f x = Ok y) xs ys -> comprehension f xs = Ok ys.
Proof.
  induction 1 as [| x y xs ys Hxy _ IH]; simpl; [reflexivity |].
  now rewrite Hxy, IH.
Qed.

Lemma comprehension_total {X Y} (f : X -> result Y) (xs : list X) :
  Forall (fun x => exists y, f x = Ok y) xs ->
  exists ys, comprehension f xs = Ok ys.
Proof.
  induction 1 as [| x rest [y Hy] _ [ys Hys]]; simpl.
  - now exists [].
  - exists (y :: ys). now rewrite Hy, Hys.
Qed.

Lemma Forall2_same_eq {X} (xs ys : list X) :
  Forall2 (fun x y => y = x) xs ys -> ys = xs.
Proof. induction 1; congruence. Qed.

Lemma dict_get_set (d : dict) (k k' : string) (v : value) :
  dict_get (dict_set d k v) k' =
  if String.eqb k k' then Some v else dict_get d k'.
Proof.
  induction d as [| [k0 v0] rest IH]; simpl.
  - reflexivity.
  - destruct (String.eqb k0 k) eqn:E0; simpl.
    + apply String.eqb_eq in E0; subst k0.
      destruct (String.eqb k k'); reflexivity.
    + destruct (String.eqb k0 k') eqn:E1.
      * apply String.eqb_eq in E1; subst k0.
        now rewrite String.eqb_sym, E0.
      * exact IH.
Qed.

Lemma dict_set_same (d : dict) (k : string) (v : value) :
  dict_get d k = Some v -> dict_set d k v = d.
Proof.
  induction d as [| [k0 v0] rest IH]; simpl; [discriminate |].
  destruct (String.eqb k0 k) eqn:E0.
  - apply String.eqb_eq in E0; subst k0. now intros [= ->].
  - intros H. now rewrite IH.
Qed.

Lemma dict_get_in_keys (d : dict) (k : string) :
  In k (dict_keys d) <-> exists v, dict_get d k = Some v.
Proof.
  induction d as [| [k0 v0] rest IH]; simpl.
  - split; [intros [] | intros [v H]; discriminate].
  - destruct (String.eqb k0 k) eqn:E0.
    + apply String.eqb_eq in E0. split; [eauto | now left].
    + apply String.eqb_neq in E0. rewrite <- IH. tauto.
Qed.

Lemma dict_mem_get (d : dict) (k : string) (v : value) :
  dict_get d k = Some v -> dict_mem d k = true.
Proof. unfold dict_mem; now intros ->. Qed.

(** ** [verify.py] *)

Section KwargCheck.
Import Verify.

Variables (d : dict) (options callback : value).

(** Every key of [kwargs] is one of [options]. *)
Hypothesis keys_allowed :
  forall k, In k (dict_keys d) -> py_in (VStr k) options = Ok true.

Lemma key_loop_passes :
  for_each (dict_keys d)
    (fun key (_ : unit) =>
       unknown <- py_not_in (VStr key) options ;;
       if unknown then
         v <- py_getitem (VDict d) (VStr key) ;;
         Err (InvalidKwargError callback (VStr key) v options)
       else Ok tt)
    tt = Ok tt.
Proof.
  apply for_each_all_ok. intros k Hk.
  unfold py_not_in. now rewrite (keys_allowed k Hk).
Qed.

(** The checks that follow the key loop. *)
Lemma kwarg_check_after_keys :
  kwarg_check (VDict d) options callback =
  if (dict_mem d "min_date" || dict_mem d "max_date") && dict_mem d "daterange"
  then Err (ContradictingError "daterange" "min_date/max_date"
              ("Using either or both of min_date and max_date, or use daterange, "
               ++ "but not both at the same time"))
  else
    has_zoom <- py_in (VStr "zoom") (VDict d) ;;
    bad_zoom <-
      (if has_zoom then
         zoom <- py_getitem (VDict d) (VStr "zoom") ;;
         below <- py_lt_int zoom 14 ;;
         if below then Ok true
         else zoom <- py_getitem (VDict d) (VStr "zoom") ;; py_gt_int zoom 17
       else Ok false) ;;
    if bad_zoom then
      zoom <- py_getitem (VDict d) (VStr "zoom") ;;
      Err (InvalidOptionError "zoom" zoom [VInt 14; VInt 15; VInt 16; VInt 17])
    else
      has_pano <- py_in (VStr "is_pano") (VDict d) ;;
      bad_pano <-
        (if has_pano then
           is_pano <- py_getitem (VDict d) (VStr "is_pano") ;;
           py_not_in is_pano (VList [VStr "pano"; VStr "flat"; VStr "all"])
         else Ok false) ;;
      if bad_pano then
        is_pano <- py_getitem (VDict d) (VStr "is_pano") ;;
        Err (InvalidOptionError "is_pano" is_pano
               [VStr "pano"; VStr "flat"; VStr "all"])
      else Ok (VBool true).
Proof.
  unfold kwarg_check.
  change (negb (is_none (VDict d))) with true. cbv iota.
  change (py_keys (VDict d)) with (Ok (dict_keys d)).
  rewrite (bind_of_ok (Ok (dict_keys d)) _ (dict_keys d) eq_refl).
  rewrite (bind_of_ok _ _ tt key_loop_passes).
  change (py_in (VStr "min_date") (VDict d)) with (Ok (dict_mem d "min_date")).
  change (py_in (VStr "max_date") (VDict d)) with (Ok (dict_mem d "max_date")).
  change (py_in (VStr "daterange") (VDict d)) with (Ok (dict_mem d "daterange")).
  destruct (dict_mem d "min_date"), (dict_mem d "max_date"),
    (dict_mem d "daterange"); reflexivity.
Qed.
End KwargCheck.

(** C7: a [zoom] below 14 or above 17, in a [kwargs] that passes the key
    check and the [daterange] check, makes [kwarg_check] raise
    [InvalidOptionError] for [zoom] with the options [[14, 15, 16, 17]]. *)
Theorem kwarg_check_zoom_out_of_range
    (d : dict) (options callback : value) (zoom : Z) :
  (forall k, In k (dict_keys d) -> py_in (VStr k) options = Ok true) ->
  (dict_mem d "min_date" || dict_mem d "max_date") && dict_mem d "daterange"
    = false ->
  dict_get d "zoom" = Some (VInt zoom) ->
  zoom < 14 \/ 17 < zoom ->
  Verify.kwarg_check (VDict d) options callback =
  Err (InvalidOptionError "zoom" (VInt zoom)
         [VInt 14; VInt 15; VInt 16; VInt 17]).
Proof.
  intros Hkeys Hdates Hzoom Hrange.
  rewrite (kwarg_check_after_keys d options callback Hkeys), Hdates.
  unfold py_in, py_getitem.
  rewrite (dict_mem_get _ _ _ Hzoom), Hzoom. simpl.
  destruct (zoom <? 14) eqn:Elt; simpl; [reflexivity |].
  apply Z.ltb_ge in Elt.
  assert (Hgt : (zoom >? 17) = true) by (apply Z.gtb_lt; lia).
  now rewrite Hgt.
Qed.

(** The scenario of C7: [kwarg_check({"zoom": 20}, options=["zoom"],
    callback="x")]. *)
Lemma kwarg_check_zoom_20 :
  Verify.kwarg_check (VDict [("zoom", VInt 20)]) (VList [VStr "zoom"]) (VStr "x")
  = Err (InvalidOptionError "zoom" (VInt 20)
           [VInt 14; VInt 15; VInt 16; VInt 17]).
Proof.
  apply (kwarg_check_zoom_out_of_range
           [("zoom", VInt 20)] (VList [VStr "zoom"]) (VStr "x") 20).
  - intros k [<- | []]. reflexivity.
  - reflexivity.
  - reflexivity.
  - right. lia.
Defined.

(** C8: [daterange] together with [min_date] or [max_date], all keys being
    allowed, makes [kwarg_check] raise [ContradictingError]. *)
Theorem kwarg_check_contradicting
    (d : dict) (options callback : value) :
  (forall k, In k (dict_keys d) -> py_in (VStr k) options = Ok true) ->
  In "daterange" (dict_keys d) ->
  In "min_date" (dict_keys d) \/ In "max_date" (dict_keys d) ->
  Verify.kwarg_check (VDict d) options callback =
  Err (ContradictingError "daterange" "min_date/max_date"
         "Using either or both of min_date and max_date, or use daterange, but not both at the same time").
Proof.
  intros Hkeys Hrange Hdate.
  rewrite (kwarg_check_after_keys d options callback Hkeys).
  apply dict_get_in_keys in Hrange. destruct Hrange as [v Hv].
  rewrite (dict_mem_get _ _ _ Hv), andb_true_r.
  destruct Hdate as [H | H]; apply dict_get_in_keys in H; destruct H as [w Hw];
    rewrite (dict_mem_get _ _ _ Hw); [| rewrite orb_true_r]; reflexivity.
Qed.

(** The scenario of C8: [{"daterange": "2021", "min_date": "2020"}], here
    with the options of [image_check]. *)
Lemma kwarg_check_daterange_min_date :
  Verify.image_check
    (VDict [("daterange", VStr "2021"); ("min_date", VStr "2020")])
  = Err (ContradictingError "daterange" "min_date/max_date"
         "Using either or both of min_date and max_date, or use daterange, but not both at the same time").
Proof.
  unfold Verify.image_check.
  apply (kwarg_check_contradicting
           [("daterange", VStr "2021"); ("min_date", VStr "2020")]).
  - intros k [<- | [<- | []]]; reflexivity.
  - simpl. now left.
  - left. simpl. right. now left.
Defined.

(** C9: with [kwargs = None] the key loop is skipped and the first
    membership test raises [TypeError]; [kwarg_check] never returns. *)
Theorem kwarg_check_none (options callback : value) :
  Verify.kwarg_check VNone options callback = Err TypeError.
Proof. reflexivity. Qed.

(** ** [format.py] *)

Section FeatureToGeojson.
Import Format.

Variable d : dict.

(** The loop of [feature_to_geojson] over [keys], started with the
    properties [props]: each key is stored with its value in [d]. *)
Lemma copy_loop (g : value) (keys : list string) :
  (forall k, In k keys -> In k (dict_keys d)) ->
  forall props,
  exists props',
    for_each keys
      (fun key feature =>
         v <- py_getitem (VDict d) (VStr key) ;;
         py_setitem2 feature (VStr "properties") (VStr key) v)
      (VDict [("type", VStr "Feature"); ("geometry", g);
              ("properties", VDict props)])
    = Ok (VDict [("type", VStr "Feature"); ("geometry", g);
                 ("properties", VDict props')])
    /\ forall k, dict_get props' k =
                 if in_dec string_dec k keys then dict_get d k
                 else dict_get props k.
Proof.
  induction keys as [| key rest IH]; intros Hkeys props.
  - exists props. split; [reflexivity | intros k; reflexivity].
  - assert (Hkey : In key (dict_keys d)) by (apply Hkeys; now left).
    apply dict_get_in_keys in Hkey. destruct Hkey as [v Hv].
    destruct (IH (fun k H => Hkeys k (or_intror H)) (dict_set props key v))
      as (props' & Hrun & Hget).
    exists props'. split.
    + cbn [for_each]. unfold py_getitem at 1. rewrite Hv.
      cbn -[for_each dict_set]. exact Hrun.
    + intros k. rewrite Hget, dict_get_set.
      destruct (in_dec string_dec k rest) as [Hin | Hout];
        destruct (in_dec string_dec k (key :: rest)) as [Hin' | Hout'];
        try reflexivity.
      * exfalso. apply Hout'. now right.
      * destruct Hin' as [-> | Hin']; [| contradiction].
        now rewrite String.eqb_refl.
      * destruct (String.eqb key k) eqn:E; [| reflexivity].
        apply String.eqb_eq in E. exfalso. apply Hout'. now left.
Qed.
End FeatureToGeojson.

(** C4, as the code has it: a record without [geometry] makes
    [feature_to_geojson] raise [KeyError] for that key; a record with
    [geometry] gives a Feature with this geometry whose properties are
    exactly the other attributes of the record, each under its own name. *)
Theorem feature_to_geojson_spec (d : dict) :
  (dict_get d "geometry" = None ->
   Format.feature_to_geojson (VDict d) = Err (KeyError (VStr "geometry")))
  /\
  (forall g, dict_get d "geometry" = Some g ->
   exists props,
     Format.feature_to_geojson (VDict d)
     = Ok (VDict [("type", VStr "Feature"); ("geometry", g);
                  ("properties", VDict props)])
     /\ forall k, dict_get props k =
                  if String.eqb k "geometry" then None else dict_get d k).
Proof.
  unfold Format.feature_to_geojson.
  change (py_keys (VDict d)) with (Ok (dict_keys d)).
  rewrite (bind_of_ok (Ok (dict_keys d)) _ (dict_keys d) eq_refl).
  unfold py_getitem at 1 3.
  split.
  - intros ->. reflexivity.
  - intros g ->.
    set (keys := filter _ (dict_keys d)).
    destruct (copy_loop d g keys) with (props := @nil (string * value))
      as (props & Hrun & Hget).
    { intros k Hk. apply filter_In in Hk. tauto. }
    exists props. split; [exact Hrun |].
    intros k. rewrite Hget.
    destruct (in_dec string_dec k keys) as [Hin | Hout].
    + apply filter_In in Hin. destruct Hin as [_ Hne].
      simpl in Hne. now destruct (String.eqb k "geometry").
    + destruct (String.eqb k "geometry") eqn:E; [reflexivity |].
      simpl. destruct (dict_get d k) eqn:Hk; [| reflexivity].
      exfalso. apply Hout. apply filter_In. split.
      * apply dict_get_in_keys. eauto.
      * simpl. now rewrite E.
Qed.

Lemma feature_to_geojson_spec_witness :
  Format.feature_to_geojson (VDict [("id", VStr "506566177256016")])
  = Err (KeyError (VStr "geometry"))
  /\
  exists props,
    Format.feature_to_geojson
      (VDict [("geometry",
               VDict [("type", VStr "Point");
                      ("coordinates", VList [VInt 30; VInt 31])]);
              ("id", VStr "506566177256016")])
    = Ok (VDict [("type", VStr "Feature");
                 ("geometry",
                  VDict [("type", VStr "Point");
                         ("coordinates", VList [VInt 30; VInt 31])]);
                 ("properties", VDict props)])
    /\ forall k, dict_get props k =
                 if String.eqb k "geometry" then None
                 else dict_get
                        [("geometry",
                          VDict [("type", VStr "Point");
                                 ("coordinates", VList [VInt 30; VInt 31])]);
                         ("id", VStr "506566177256016")] k.
Proof.
  split.
  - apply (proj1 (feature_to_geojson_spec [("id", VStr "506566177256016")])).
    reflexivity.
  - apply (proj2 (feature_to_geojson_spec
                    [("geometry",
                      VDict [("type", VStr "Point");
                             ("coordinates", VList [VInt 30; VInt 31])]);
                     ("id", VStr "506566177256016")])).
    reflexivity.
Defined.

(** A record without [geometry] on which the error is not
    [MissingGeometryError]. *)
Lemma missing_geometry_raises_key_error :
  ~ (forall record,
       py_in (VStr "geometry") record = Ok false ->
       Format.feature_to_geojson record = Err MissingGeometryError).
Proof.
  intros H.
  specialize (H (VDict [("id", VStr "506566177256016")]) eq_refl).
  discriminate H.
Qed.

(** C1, at the record with only an id and a value: the three attributes the record does
    not have are in the output properties, with the value [None]. *)
Theorem detection_keeps_none_properties :
  Format.detection_features_to_geojson
    (VList [VDict [("id", VStr "1"); ("value", VStr "v")]])
  = Ok (VDict
          [("type", VStr "FeatureCollection");
           ("features",
            VList
              [VDict
                 [("type", VStr "Feature");
                  ("geometry", VDict []);
                  ("properties",
                   VDict [("image_id", VNone);
                          ("created_at", VNone);
                          ("pixel_geometry", VNone);
                          ("value", VStr "v");
                          ("id", VStr "1")])]])]).
Proof. reflexivity. Qed.


(** C3, on two collections whose only features have the same [id]: the
    copy of the property [name] raises [TypeError]. *)
Theorem join_raises_on_first_copy :
  Format.join_geojson_with_keys
    (VDict [("type", VStr "FeatureCollection");
            ("features",
             VList [VDict [("type", VStr "Feature");
                           ("geometry", VDict []);
                           ("properties", VDict [("id", VInt 1)])]])])
    (VStr "id")
    (VDict [("type", VStr "FeatureCollection");
            ("features",
             VList [VDict [("type", VStr "Feature");
                           ("geometry", VDict []);
                           ("properties",
                            VDict [("id", VInt 1);
                                   ("name", VStr "a")])]])])
    (VStr "id")
  = Err TypeError.
Proof. reflexivity. Qed.

Section Join.
Import Format.

Variables geojson_src_key geojson_dest_key : value.

(** A pair of features is left as it was, or the body raises. *)
Lemma join_pair_unchanged (into_features from_features out : value) :
  join_pair geojson_src_key geojson_dest_key into_features from_features
  = Ok out ->
  out = from_features.
Proof.
  unfold join_pair. intros H.
  bind_inv H as into_properties Hinto.
  bind_inv H as no_dest_key Hno.
  bind_inv H as skip Hskip.
  destruct skip; [now inversion H |].
  bind_inv H as from_properties Hfrom.
  bind_inv H as src_id Hsrc. bind_inv H as src_int Hsrc_int.
  bind_inv H as into_properties' Hinto'.
  bind_inv H as dest_id Hdest. bind_inv H as dest_int Hdest_int.
  destruct (src_int =? dest_int); [| now inversion H].
  bind_inv H as from_properties' Hfrom'. bind_inv H as old_keys Hold.
  bind_inv H as into_properties'' Hinto''. bind_inv H as new_properties Hnew.
  revert H. apply for_each_unchanged.
  intros new_property s s' _ Hbody.
  bind_inv Hbody as is_new Hnew'.
  destruct is_new; [| now inversion Hbody].
  simpl in Hbody. discriminate Hbody.
Qed.

(** X9: [join_geojson_with_keys] returns [geojson_src] as it was, or
    raises: no property is ever copied. *)
Lemma join_never_copies (geojson_src geojson_dest out : value) :
  join_geojson_with_keys
    geojson_src geojson_src_key geojson_dest geojson_dest_key = Ok out ->
  out = geojson_src.
Proof.
  unfold join_geojson_with_keys. intros H.
  bind_inv H as src_features Hsrc.
  bind_inv H as items Hitems.
  bind_inv H as items' Hloop.
  assert (Hsame : items' = items).
  { apply Forall2_same_eq.
    apply comprehension_Forall2 in Hloop.
    eapply Forall2_impl; [| exact Hloop].
    intros from_features out' Hrun. simpl in Hrun.
    bind_inv Hrun as dest_features Hdest.
    bind_inv Hrun as dest_items Hdest_items.
    revert Hrun. apply for_each_unchanged.
    intros into_features s s' _. apply join_pair_unchanged. }
  subst items'.
  destruct src_features as [| | | | l |]; try (now inversion H).
  simpl in Hitems. inversion Hitems; subst items.
  destruct geojson_src as [| | | | | d]; try discriminate Hsrc.
  simpl in Hsrc.
  destruct (dict_get d "features") eqn:Hget; [| discriminate Hsrc].
  inversion Hsrc; subst v.
  simpl in H. rewrite (dict_set_same _ _ _ Hget) in H. now inversion H.
Qed.
End Join.

Section Detection.
Import Format.

(** The Feature built for one record: [image_id] is [None] whatever the
    record holds, since ["image" in "feature"] is false. *)
Lemma detection_feature_shape (feature out : value) :
  detection_feature feature = Ok out ->
  exists geometry created_at pixel_geometry val id,
    out = VDict [("type", VStr "Feature");
                 ("geometry", geometry);
                 ("properties",
                  VDict [("image_id", VNone);
                         ("created_at", created_at);
                         ("pixel_geometry", pixel_geometry);
                         ("value", val);
                         ("id", id)])].
Proof.
  unfold detection_feature. intros H.
  bind_inv H as has_image Himage.
  bind_inv H as geometry Hgeometry.
  change (py_in (VStr "image") (VStr "feature")) with (Ok false) in H.
  cbv beta iota delta [bind] in H.
  destruct (field_or_none feature "created_at") as [created_at |];
    [| discriminate H].
  destruct (field_or_none feature "geometry") as [pixel_geometry |];
    [| discriminate H].
  destruct (field_or_none feature "value") as [val |]; [| discriminate H].
  destruct (py_getitem feature (VStr "id")) as [id |]; [| discriminate H].
  inversion H.
  exists geometry, created_at, pixel_geometry, val, id. reflexivity.
Qed.

(** The clean-up loop tests the keys, which are strings: nothing is
    deleted. *)
Lemma drop_none_properties_keeps (feature : value) (properties : dict) :
  py_getitem feature (VStr "properties") = Ok (VDict properties) ->
  drop_none_properties feature = Ok feature.
Proof.
  intros Hget. unfold drop_none_properties. rewrite Hget.
  cbn [bind py_iter].
  apply for_each_all_ok. intros name Hname.
  apply in_map_iff in Hname. destruct Hname as (k & <- & _). reflexivity.
Qed.

(** The collection returned for the records [records], once each of them
    is converted. *)
Lemma detection_features_of_items (feature_list : value)
    (records features : list value) :
  py_iter feature_list = Ok records ->
  comprehension detection_feature records = Ok features ->
  detection_features_to_geojson feature_list
  = Ok (VDict [("type", VStr "FeatureCollection");
               ("features", VList features)]).
Proof.
  intros Hrecords Hfeatures. unfold detection_features_to_geojson.
  rewrite Hrecords. cbn [bind]. rewrite Hfeatures. cbn.
  assert (Hclean : comprehension drop_none_properties features = Ok features).
  { apply Forall2_comprehension.
    apply comprehension_Forall2 in Hfeatures.
    clear Hrecords.
    induction Hfeatures as [| r f rs fs Hrf _ IH]; constructor; auto.
    apply detection_feature_shape in Hrf.
    destruct Hrf as (g & ca & pg & v & id & ->).
    eapply drop_none_properties_keeps. reflexivity. }
  rewrite Hclean. reflexivity.
Qed.

Lemma detection_features_shape (feature_list out : value) :
  detection_features_to_geojson feature_list = Ok out ->
  exists records features,
    py_iter feature_list = Ok records /\
    Forall2 (fun record feature => detection_feature record = Ok feature)
      records features /\
    out = VDict [("type", VStr "FeatureCollection");
                 ("features", VList features)].
Proof.
  intros H. pose proof H as H'. unfold detection_features_to_geojson in H'.
  bind_inv H' as records Hrecords.
  bind_inv H' as features Hfeatures.
  exists records, features. split; [exact Hrecords |].
  split; [now apply comprehension_Forall2 |].
  rewrite (detection_features_of_items _ _ _ Hrecords Hfeatures) in H.
  now inversion H.
Qed.
End Detection.

(** C10: when [detection_features_to_geojson] returns, the output has one
    Feature per record and the [image_id] property of each is [None], also
    for a record that has an [image] with an [id]. *)
Theorem detection_image_id_is_none (feature_list out : value) :
  Format.detection_features_to_geojson feature_list = Ok out ->
  exists records features,
    py_iter feature_list = Ok records /\
    out = VDict [("type", VStr "FeatureCollection");
                 ("features", VList features)] /\
    Forall2
      (fun record feature =>
         exists properties,
           py_getitem feature (VStr "properties") = Ok (VDict properties) /\
           dict_get properties "image_id" = Some VNone)
      records features.
Proof.
  intros H. apply detection_features_shape in H.
  destruct H as (records & features & Hiter & Hall & ->).
  exists records, features. repeat split; [exact Hiter |].
  eapply Forall2_impl; [| exact Hall].
  intros record feature Hrf. apply detection_feature_shape in Hrf.
  destruct Hrf as (g & ca & pg & v & id & ->).
  eexists. split; reflexivity.
Qed.

(** The record of the docstring, which has an [image] with an [id]. *)
Lemma detection_image_id_is_none_witness :
  exists records features,
    py_iter (VList [Format.sample_detection]) = Ok records /\
    Format.sample_detection_output
    = VDict [("type", VStr "FeatureCollection");
             ("features", VList features)] /\
    Forall2
      (fun record feature =>
         exists properties,
           py_getitem feature (VStr "properties") = Ok (VDict properties) /\
           dict_get properties "image_id" = Some VNone)
      records features.
Proof.
  apply (detection_image_id_is_none
           (VList [Format.sample_detection]) Format.sample_detection_output).
  reflexivity.
Defined.

Section DetectionTotal.
Import Format.

Variable d : dict.

Lemma field_or_none_dict (name : string) :
  field_or_none (VDict d) name =
  Ok (match dict_get d name with Some v => v | None => VNone end).
Proof.
  unfold field_or_none, py_in, py_getitem, dict_mem.
  destruct (dict_get d name); reflexivity.
Qed.

Lemma py_getitem_dict (name : string) :
  py_getitem (VDict d) (VStr name) =
  match dict_get d name with
  | Some v => Ok v
  | None => Err (KeyError (VStr name))
  end.
Proof. reflexivity. Qed.

(** A record with an [id], and with no [image] or with one that has the
    coordinates of a geometry, is converted. *)
Lemma detection_feature_total (id : value) :
  dict_get d "id" = Some id ->
  dict_get d "image" = None \/
  (exists image geometry coordinates,
     dict_get d "image" = Some (VDict image) /\
     dict_get image "geometry" = Some (VDict geometry) /\
     dict_get geometry "coordinates" = Some coordinates) ->
  exists out, detection_feature (VDict d) = Ok out.
Proof.
  intros Hid Himage. unfold detection_feature.
  rewrite !field_or_none_dict.
  change (py_in (VStr "image") (VStr "feature")) with (Ok false).
  change (py_in (VStr "image") (VDict d)) with (Ok (dict_mem d "image")).
  rewrite (py_getitem_dict "id"), Hid.
  unfold dict_mem.
  destruct Himage as [Hnone | (image & geometry & coordinates & Hi & Hg & Hc)].
  - rewrite Hnone. cbn [bind]. eexists. reflexivity.
  - rewrite (py_getitem_dict "image"), Hi. cbn [bind].
    unfold py_getitem. rewrite Hg. cbn [bind]. rewrite Hc. cbn [bind].
    eexists. reflexivity.
Qed.
End DetectionTotal.

(** X13: a list of detection records is always converted. *)
Lemma detection_features_total (records : list value) :
  Forall Format.detection_record records ->
  exists out, Format.detection_features_to_geojson (VList records) = Ok out.
Proof.
  intros Hall.
  destruct (comprehension_total Format.detection_feature records)
    as [features Hfeatures].
  { eapply Forall_impl; [| exact Hall].
    intros record (d & id & -> & Hid & Himage).
    now apply (detection_feature_total d id). }
  eexists.
  apply (detection_features_of_items (VList records) records features);
    [reflexivity | exact Hfeatures].
Qed.

(** ** [feature.py] *)

Section Executions.
Import Feature.

Context {A : Type}.

Lemma exec_call_inv (c : call) (k : answer c -> prog A)
    (tr : list event) (o : outcome A) :
  exec (Call c k) tr o ->
  (exists r tr', tr = Returned c r :: tr' /\ exec (k r) tr' o) \/
  (exists e, tr = [Raised c e] /\ o = Failed e).
Proof.
  intros H.
  refine
    (match H in exec p tr o return
       match p with
       | Call c k =>
           (exists r tr', tr = Returned c r :: tr' /\ exec (k r) tr' o) \/
           (exists e, tr = [Raised c e] /\ o = Failed e)
       | _ => True
       end
     with
     | exec_ret _ => I
     | exec_raise _ => I
     | exec_returned c' k' r tr' o' H' =>
         or_introl (ex_intro _ r (ex_intro _ tr' (conj eq_refl H')))
     | exec_raised c' k' e => or_intror (ex_intro _ e (conj eq_refl eq_refl))
     end).
Qed.

(** A run of a handler is an execution. *)
Lemma run_exec {W : Type} (h : handler W) (p : prog A) :
  forall w, exec p (fst (run h p w)) (snd (run h p w)).
Proof.
  induction p as [a | e | c k IH]; intros w; simpl.
  - constructor.
  - constructor.
  - destruct (h c w) as [w' [r | e]]; simpl.
    + specialize (IH r w'). destruct (run h (k r) w') as [tr o]. simpl in *.
      now constructor.
    + constructor.
Qed.

Lemma every_call_exec (P : call -> Prop) (p : prog A)
    (tr : list event) (o : outcome A) :
  exec p tr o -> every_call P p -> Forall (fun ev => P (call_of ev)) tr.
Proof.
  induction 1 as [a | e | c k r tr o _ IH | c k e]; simpl; intros HP.
  - constructor.
  - constructor.
  - destruct HP as [Hc Hk]. constructor; [exact Hc | apply IH, Hk].
  - destruct HP as [Hc _]. constructor; [exact Hc | constructor].
Qed.
End Executions.

Section EveryCall.
Import Feature.

Variable P : call -> Prop.

Lemma every_call_pbind {A B} (p : prog A) (f : A -> prog B) :
  every_call P p -> (forall a, every_call P (f a)) ->
  every_call P (pbind p f).
Proof.
  induction p as [a | e | c k IH]; simpl; intros Hp Hf.
  - apply Hf.
  - exact I.
  - destruct Hp as [Hc Hk]. split; [exact Hc |].
    intros r. apply IH; [apply Hk | exact Hf].
Qed.

Lemma every_call_lift_bind {A B} (r : result A) (f : A -> prog B) :
  (forall a, r = Ok a -> every_call P (f a)) ->
  every_call P (pbind (lift r) f).
Proof. destruct r as [a | e]; simpl; intros H; [now apply H | exact I]. Qed.

Lemma every_call_do_call (c : call) : P c -> every_call P (do_call c).
Proof. intros Hc. split; [exact Hc | intros r; exact I]. Qed.

Lemma every_call_for_each_prog {X S} (body : X -> S -> prog S) (xs : list X) :
  (forall x s, every_call P (body x s)) ->
  forall s, every_call P (for_each_prog xs body s).
Proof.
  intros Hbody. induction xs as [| x rest IH]; intros s; simpl.
  - exact I.
  - apply every_call_pbind; [apply Hbody | exact IH].
Qed.
End EveryCall.

Section Controller.
Import Feature.

Variables bbox filter_values layer : value.

(** What [components] returns is the stage list of the specification. *)
Lemma components_spec (validated stages : value) :
  components bbox filter_values validated = Ok stages ->
  exists existed_at existed_before,
    py_getitem validated (VStr "existed_at") = Ok existed_at /\
    py_getitem validated (VStr "existed_before") = Ok existed_before /\
    stages = spec_stage_list bbox filter_values existed_at existed_before.
Proof.
  unfold components. intros H.
  bind_inv H as existed_at Hat.
  bind_inv H as by_existed_at Hby_at.
  bind_inv H as existed_before Hbefore.
  bind_inv H as by_existed_before Hby_before.
  exists existed_at, existed_before. split; [exact Hat |].
  split; [exact Hbefore |].
  rewrite Hat in Hby_at. rewrite Hbefore in Hby_before.
  inversion H. unfold spec_stage_list.
  destruct (is_none filter_values), (is_none existed_at),
    (is_none existed_before);
    cbn in Hby_at, Hby_before; inversion Hby_at; inversion Hby_before;
    reflexivity.
Qed.

(** The calls of one tile. *)
Lemma tile_step_calls (validated : value) (tile : Tile)
    (filtered_features : list value) :
  every_call (tile_call bbox filter_values validated)
    (tile_step bbox filter_values validated layer tile filtered_features).
Proof.
  assert (Hother : forall c,
             is_validation c = false ->
             (forall data stages, c <> pipeline data stages) ->
             tile_call bbox filter_values validated c).
  { intros c Hv Hp. split; [exact Hv |]. intros data stages E.
    now apply Hp in E. }
  unfold tile_step.
  apply every_call_pbind.
  { destruct (py_eq layer (VStr "points")); apply every_call_do_call;
      apply Hother; [reflexivity | discriminate | reflexivity | discriminate]. }
  intros url. apply every_call_pbind.
  { apply every_call_do_call, Hother; [reflexivity | discriminate]. }
  intros res. apply every_call_pbind.
  { apply every_call_do_call, Hother; [reflexivity | discriminate]. }
  intros data. apply every_call_lift_bind. intros stages Hstages.
  apply every_call_pbind.
  { apply every_call_do_call. split; [reflexivity |].
    intros data' stages' Heq. inversion Heq; subst. exact Hstages. }
  intros kept. apply every_call_lift_bind. intros items _. exact I.
Qed.
End Controller.

(** Every run of the controller starts with the validation of [filters];
    it ends there when the validation raises, and goes on with the calls
    of the tiles otherwise. *)
Lemma controller_run (bbox filter_values filters layer : value)
    (tr : list Feature.event) (o : Feature.outcome value) :
  Feature.exec
    (Feature.get_map_features_in_bbox_controller
       bbox filter_values filters layer) tr o ->
  (exists e,
     tr = [Feature.Raised (Feature.points_traffic_signs_check filters) e] /\
     o = Feature.Failed e)
  \/
  (exists validated rest,
     tr = Feature.Returned (Feature.points_traffic_signs_check filters)
            validated :: rest /\
     Forall (fun ev => Feature.tile_call bbox filter_values validated
                         (Feature.call_of ev)) rest).
Proof.
  unfold Feature.get_map_features_in_bbox_controller. cbn [Feature.pbind Feature.do_call].
  intros H. apply exec_call_inv in H.
  destruct H as [(validated & rest & -> & Hrest) | (e & -> & ->)].
  - right. exists validated, rest. split; [reflexivity |].
    apply (every_call_exec _ _ _ _ Hrest). cbn [Feature.pbind].
    split; [split; [reflexivity | discriminate] |].
    intros client.
    do 4 (apply every_call_lift_bind; intros ? _).
    split; [split; [reflexivity | discriminate] |].
    intros tiles. apply every_call_pbind.
    + apply every_call_for_each_prog. intros tile acc.
      apply tile_step_calls.
    + intros filtered_features. exact I.
  - left. exists e. split; reflexivity.
Qed.

(** C5: the stage list of every call of [pipeline] is the one of the
    specification, built from [filter_values], the [bbox] of the query and
    the entries [existed_at] and [existed_before] of the validated filters:
    each of the three optional stages is there when its value is not [None]
    and is the empty descriptor otherwise; the bounding-box stage is always
    there. *)
Theorem pipeline_stage_list (bbox filter_values filters layer : value)
    (tr : list Feature.event) (o : Feature.outcome value) :
  Feature.exec
    (Feature.get_map_features_in_bbox_controller
       bbox filter_values filters layer) tr o ->
  forall ev data stages,
    In ev tr ->
    Feature.call_of ev = Feature.pipeline data stages ->
    exists validated existed_at existed_before,
      hd_error tr
      = Some (Feature.Returned (Feature.points_traffic_signs_check filters)
                validated) /\
      py_getitem validated (VStr "existed_at") = Ok existed_at /\
      py_getitem validated (VStr "existed_before") = Ok existed_before /\
      stages = Feature.spec_stage_list
                 bbox filter_values existed_at existed_before.
Proof.
  intros Hrun ev data stages Hin Hcall.
  apply controller_run in Hrun.
  destruct Hrun as [(e & -> & _) | (validated & rest & -> & Hrest)].
  - destruct Hin as [<- | []]. discriminate Hcall.
  - destruct Hin as [<- | Hin]; [discriminate Hcall |].
    rewrite Forall_forall in Hrest. destruct (Hrest ev Hin) as [_ Hstages].
    apply Hstages, components_spec in Hcall.
    destruct Hcall as (existed_at & existed_before & Hat & Hbefore & ->).
    exists validated, existed_at, existed_before. repeat split; assumption.
Qed.

Lemma pipeline_stage_list_witness :
  exists validated existed_at existed_before,
    hd_error (fst Feature.sample_run)
    = Some (Feature.Returned
              (Feature.points_traffic_signs_check Feature.sample_filters)
              validated) /\
    py_getitem validated (VStr "existed_at") = Ok existed_at /\
    py_getitem validated (VStr "existed_before") = Ok existed_before /\
    Feature.sample_stages
    = Feature.spec_stage_list Feature.sample_bbox VNone
        existed_at existed_before.
Proof.
  apply (pipeline_stage_list
           Feature.sample_bbox VNone Feature.sample_filters (VStr "points")
           (fst Feature.sample_run) (snd Feature.sample_run)
           (run_exec Feature.sample_handler _ tt)
           (Feature.Returned
              (Feature.pipeline Feature.sample_data Feature.sample_stages)
              (VList (firstn 1 Feature.sample_features)))
           Feature.sample_data Feature.sample_stages).
  - vm_compute. do 6 right. left. reflexivity.
  - reflexivity.
Defined.

(** C6: the validation of [filters] is the first call of every run of the
    controller.  When it raises, the run ends with this exception and makes
    no other call, so no tile is fetched; no later call is a validation, so
    no validation error follows a tile fetch. *)
Theorem validation_before_tile_fetch
    (bbox filter_values filters layer : value)
    (tr : list Feature.event) (o : Feature.outcome value) :
  Feature.exec
    (Feature.get_map_features_in_bbox_controller
       bbox filter_values filters layer) tr o ->
  exists first rest,
    tr = first :: rest /\
    Feature.call_of first = Feature.points_traffic_signs_check filters /\
    (forall e,
       first = Feature.Raised (Feature.points_traffic_signs_check filters) e ->
       rest = [] /\ o = Feature.Failed e) /\
    Forall (fun ev => Feature.is_validation (Feature.call_of ev) = false)
      rest /\
    (forall pre ev post,
       tr = (pre ++ ev :: post)%list ->
       Feature.is_validation (Feature.call_of ev) = true ->
       Forall (fun ev' => Feature.is_tile_fetch (Feature.call_of ev') = false)
         pre).
Proof.
  intros Hrun. apply controller_run in Hrun.
  assert (Hpos : forall first rest,
             Forall (fun ev => Feature.is_validation (Feature.call_of ev)
                               = false) rest ->
             forall pre ev post,
               first :: rest = (pre ++ ev :: post)%list ->
               Feature.is_validation (Feature.call_of ev) = true ->
               Forall (fun ev' => Feature.is_tile_fetch (Feature.call_of ev')
                                  = false) pre).
  { intros first rest Hrest pre ev post Heq Hv.
    destruct pre as [| p pre]; [constructor |].
    simpl in Heq. injection Heq as _ Heq. subst rest.
    rewrite Forall_forall in Hrest.
    rewrite (Hrest ev) in Hv; [discriminate Hv |].
    apply in_or_app. right. now left. }
  destruct Hrun as [(e & -> & ->) | (validated & rest & -> & Hrest)].
  - eexists. exists []. split; [reflexivity |]. split; [reflexivity |].
    split; [| split].
    + intros e' [= <-]. split; reflexivity.
    + constructor.
    + apply Hpos. constructor.
  - assert (Hnv : Forall (fun ev => Feature.is_validation (Feature.call_of ev)
                                    = false) rest).
    { eapply Forall_impl; [| exact Hrest]. intros ev [Hv _]. exact Hv. }
    eexists. exists rest. split; [reflexivity |]. split; [reflexivity |].
    split; [| split].
    + intros e' H. discriminate H.
    + exact Hnv.
    + apply Hpos. exact Hnv.
Qed.

Lemma validation_before_tile_fetch_witness :
  exists first rest,
    fst Feature.sample_run = first :: rest /\
    Feature.call_of first
    = Feature.points_traffic_signs_check Feature.sample_filters /\
    (forall e,
       first = Feature.Raised
                 (Feature.points_traffic_signs_check Feature.sample_filters) e ->
       rest = [] /\ snd Feature.sample_run = Feature.Failed e) /\
    Forall (fun ev => Feature.is_validation (Feature.call_of ev) = false)
      rest /\
    (forall pre ev post,
       fst Feature.sample_run = (pre ++ ev :: post)%list ->
       Feature.is_validation (Feature.call_of ev) = true ->
       Forall (fun ev' => Feature.is_tile_fetch (Feature.call_of ev') = false)
         pre).
Proof.
  apply (validation_before_tile_fetch
           Feature.sample_bbox VNone Feature.sample_filters (VStr "points")
           (fst Feature.sample_run) (snd Feature.sample_run)
           (run_exec Feature.sample_handler _ tt)).
Defined.

(** * Further properties *)

(** ** More on [verify.py] *)

Lemma for_each_app {X S} (body : X -> S -> result S) (xs ys : list X) (s : S) :
  for_each (xs ++ ys)%list body s =
  (s' <- for_each xs body s ;; for_each ys body s').
Proof.
  revert s. induction xs as [| x rest IH]; intros s; simpl; [reflexivity |].
  destruct (body x s) as [s' | e]; simpl; [apply IH | reflexivity].
Qed.

Lemma dict_get_app (d1 d2 : dict) (k : string) :
  dict_get (d1 ++ d2)%list k =
  match dict_get d1 k with
  | Some v => Some v
  | None => dict_get d2 k
  end.
Proof.
  induction d1 as [| [k0 v0] rest IH]; simpl; [reflexivity |].
  destruct (String.eqb k0 k); [reflexivity | exact IH].
Qed.

Lemma dict_get_not_in_keys (d : dict) (k : string) :
  ~ In k (dict_keys d) -> dict_get d k = None.
Proof.
  intros Hnot. destruct (dict_get d k) eqn:E; [| reflexivity].
  exfalso. apply Hnot, dict_get_in_keys. eauto.
Qed.

Lemma py_eq_str_inv (v : value) (s : string) :
  py_eq v (VStr s) = true -> v = VStr s.
Proof.
  destruct v; simpl; try discriminate.
  intros H. apply String.eqb_eq in H. now subst.
Qed.

(** X1: the first key of [kwargs] that is not one of [options] is
    reported, with its value, by [InvalidKwargError]; what follows it in
    [kwargs] plays no part. *)
Theorem kwarg_check_unknown_key
    (pre post : dict) (k : string) (v options callback : value) :
  (forall k', In k' (dict_keys pre) -> py_in (VStr k') options = Ok true) ->
  py_in (VStr k) options = Ok false ->
  Verify.kwarg_check (VDict (pre ++ (k, v) :: post)%list) options callback
  = Err (InvalidKwargError callback (VStr k) v options).
Proof.
  intros Hpre Hk.
  assert (Hnot : ~ In k (dict_keys pre)).
  { intros Hin. apply Hpre in Hin. rewrite Hin in Hk. discriminate Hk. }
  unfold Verify.kwarg_check.
  change (negb (is_none (VDict (pre ++ (k, v) :: post)%list))) with true.
  cbv iota.
  change (py_keys (VDict (pre ++ (k, v) :: post)%list))
    with (Ok (dict_keys (pre ++ (k, v) :: post)%list)).
  rewrite (bind_of_ok (Ok (dict_keys (pre ++ (k, v) :: post)%list)) _ _ eq_refl).
  unfold dict_keys. rewrite map_app. cbn [map fst].
  rewrite for_each_app.
  rewrite (for_each_all_ok _ (map fst pre) tt).
  - cbn [bind for_each]. unfold py_not_in. rewrite Hk. cbn [bind negb].
    unfold py_getitem. rewrite dict_get_app.
    rewrite (dict_get_not_in_keys pre k Hnot). cbn [dict_get].
    rewrite String.eqb_refl. reflexivity.
  - intros k' Hk'. unfold py_not_in. now rewrite (Hpre k' Hk').
Qed.

Lemma kwarg_check_unknown_key_witness :
  Verify.kwarg_check
    (VDict ([("min_date", VStr "2020")]
            ++ ("zoom", VInt 20) :: [("radius", VInt 3)])%list)
    (VList [VStr "max_date"; VStr "min_date"; VStr "is_pano"])
    (VStr "shape_bbox_check")
  = Err (InvalidKwargError (VStr "shape_bbox_check") (VStr "zoom") (VInt 20)
           (VList [VStr "max_date"; VStr "min_date"; VStr "is_pano"])).
Proof.
  apply (kwarg_check_unknown_key
           [("min_date", VStr "2020")] [("radius", VInt 3)] "zoom").
  - intros k' [<- | []]. reflexivity.
  - reflexivity.
Defined.

(** X2: whatever its arguments, [kwarg_check] returns [True] when it
    returns: a rejection is always an exception, never [False]. *)
Theorem kwarg_check_returns_true (kwargs options callback r : value) :
  Verify.kwarg_check kwargs options callback = Ok r -> r = VBool true.
Proof.
  unfold Verify.kwarg_check. intros H.
  bind_inv H as u Hu. bind_inv H as has_min Hmin.
  bind_inv H as has_date Hdate. bind_inv H as contradicting Hc.
  destruct contradicting; [discriminate H |].
  bind_inv H as has_zoom Hzoom. bind_inv H as bad_zoom Hbad.
  destruct bad_zoom.
  { bind_inv H as zoom Hz. discriminate H. }
  bind_inv H as has_pano Hpano. bind_inv H as bad_pano Hbadp.
  destruct bad_pano.
  { bind_inv H as is_pano Hp. discriminate H. }
  now inversion H.
Qed.

Lemma kwarg_check_returns_true_witness :
  Verify.kwarg_check
    (VDict [("zoom", VInt 15); ("is_pano", VStr "flat")])
    (VList [VStr "zoom"; VStr "is_pano"]) (VStr "x") = Ok (VBool true)
  /\ VBool true = VBool true.
Proof.
  split; [reflexivity |].
  apply (kwarg_check_returns_true
           (VDict [("zoom", VInt 15); ("is_pano", VStr "flat")])
           (VList [VStr "zoom"; VStr "is_pano"]) (VStr "x") (VBool true)).
  reflexivity.
Defined.

(** What is left of [kwarg_check] once the keys, the dates and [zoom]
    have passed. *)
Lemma kwarg_check_after_zoom (d : dict) (options callback : value) :
  (forall k, In k (dict_keys d) -> py_in (VStr k) options = Ok true) ->
  (dict_mem d "min_date" || dict_mem d "max_date") && dict_mem d "daterange"
    = false ->
  (dict_get d "zoom" = None \/
   exists z, dict_get d "zoom" = Some (VInt z) /\ 14 <= z <= 17) ->
  Verify.kwarg_check (VDict d) options callback =
  match dict_get d "is_pano" with
  | None => Ok (VBool true)
  | Some is_pano =>
      if existsb (py_eq is_pano) [VStr "pano"; VStr "flat"; VStr "all"]
      then Ok (VBool true)
      else Err (InvalidOptionError "is_pano" is_pano
                  [VStr "pano"; VStr "flat"; VStr "all"])
  end.
Proof.
  intros Hkeys Hdates Hzoom.
  rewrite (kwarg_check_after_keys d options callback Hkeys), Hdates.
  unfold py_not_in, py_in, py_getitem, dict_mem.
  destruct Hzoom as [-> | (z & -> & Hlo & Hhi)]; cbn [bind py_lt_int py_gt_int].
  - destruct (dict_get d "is_pano") as [is_pano |]; [| reflexivity].
    cbn [bind]. now destruct (existsb _ _).
  - assert (E1 : (z <? 14) = false) by (apply Z.ltb_ge; lia).
    assert (E2 : (z >? 17) = false)
      by (rewrite Z.gtb_ltb; apply Z.ltb_ge; lia).
    rewrite E1, E2. cbn [bind].
    destruct (dict_get d "is_pano") as [is_pano |]; [| reflexivity].
    cbn [bind]. now destruct (existsb _ _).
Qed.

(** X3: a [kwargs] whose keys are all allowed, without [daterange]
    beside [min_date] or [max_date], whose [zoom], if any, is an integer
    from 14 to 17 and whose [is_pano], if any, is ['pano'], ['flat'] or
    ['all'], is accepted. *)
Theorem kwarg_check_accepts (d : dict) (options callback : value) :
  (forall k, In k (dict_keys d) -> py_in (VStr k) options = Ok true) ->
  (dict_mem d "min_date" || dict_mem d "max_date") && dict_mem d "daterange"
    = false ->
  (dict_get d "zoom" = None \/
   exists z, dict_get d "zoom" = Some (VInt z) /\ 14 <= z <= 17) ->
  (dict_get d "is_pano" = None \/
   exists s, dict_get d "is_pano" = Some (VStr s) /\
             In s ["pano"; "flat"; "all"]) ->
  Verify.kwarg_check (VDict d) options callback = Ok (VBool true).
Proof.
  intros Hkeys Hdates Hzoom Hpano.
  rewrite (kwarg_check_after_zoom d options callback Hkeys Hdates Hzoom).
  destruct Hpano as [-> | (s & -> & Hs)]; [reflexivity |].
  destruct Hs as [<- | [<- | [<- | []]]]; reflexivity.
Qed.

Lemma kwarg_check_accepts_witness :
  Verify.kwarg_check
    (VDict [("zoom", VInt 14); ("is_pano", VStr "all");
            ("min_date", VStr "2020")])
    (VList [VStr "zoom"; VStr "is_pano"; VStr "min_date"; VStr "daterange"])
    (VStr "x")
  = Ok (VBool true).
Proof.
  apply kwarg_check_accepts.
  - intros k [<- | [<- | [<- | []]]]; reflexivity.
  - reflexivity.
  - right. exists 14. split; [reflexivity | lia].
  - right. exists "all". split; [reflexivity | simpl; tauto].
Defined.

(** X4: an [is_pano] that is none of ['pano'], ['flat'] and ['all'], in a
    [kwargs] that passes the checks before it, is rejected by
    [InvalidOptionError] with these three options. *)
Theorem kwarg_check_is_pano_invalid
    (d : dict) (options callback is_pano : value) :
  (forall k, In k (dict_keys d) -> py_in (VStr k) options = Ok true) ->
  (dict_mem d "min_date" || dict_mem d "max_date") && dict_mem d "daterange"
    = false ->
  (dict_get d "zoom" = None \/
   exists z, dict_get d "zoom" = Some (VInt z) /\ 14 <= z <= 17) ->
  dict_get d "is_pano" = Some is_pano ->
  is_pano <> VStr "pano" -> is_pano <> VStr "flat" -> is_pano <> VStr "all" ->
  Verify.kwarg_check (VDict d) options callback
  = Err (InvalidOptionError "is_pano" is_pano
           [VStr "pano"; VStr "flat"; VStr "all"]).
Proof.
  intros Hkeys Hdates Hzoom Hpano H1 H2 H3.
  rewrite (kwarg_check_after_zoom d options callback Hkeys Hdates Hzoom), Hpano.
  assert (Hne : forall s, is_pano <> VStr s -> py_eq is_pano (VStr s) = false).
  { intros s Hs. destruct (py_eq is_pano (VStr s)) eqn:E; [| reflexivity].
    now apply py_eq_str_inv in E. }
  cbn [existsb]. now rewrite (Hne _ H1), (Hne _ H2), (Hne _ H3).
Qed.

Lemma kwarg_check_is_pano_invalid_witness :
  Verify.shape_bbox_check
    (VDict [("is_pano", VBool true); ("max_date", VStr "2021")])
  = Err (InvalidOptionError "is_pano" (VBool true)
           [VStr "pano"; VStr "flat"; VStr "all"]).
Proof.
  unfold Verify.shape_bbox_check.
  apply (kwarg_check_is_pano_invalid
           [("is_pano", VBool true); ("max_date", VStr "2021")]).
  - intros k [<- | [<- | []]]; reflexivity.
  - reflexivity.
  - now left.
  - reflexivity.
  - discriminate.
  - discriminate.
  - discriminate.
Defined.

Section KeyLoop.
Import Verify.

Variables (d : dict) (opts : list value) (callback : value).

(** With a list of options the key loop passes, all keys being allowed, or
    raises [InvalidKwargError]. *)
Lemma key_loop_cases (keys : list string) :
  (forall k, In k keys -> In k (dict_keys d)) ->
  (for_each keys
     (fun key (_ : unit) =>
        unknown <- py_not_in (VStr key) (VList opts) ;;
        if unknown then
          v <- py_getitem (VDict d) (VStr key) ;;
          Err (InvalidKwargError callback (VStr key) v (VList opts))
        else Ok tt)
     tt = Ok tt
   /\ forall k, In k keys -> py_in (VStr k) (VList opts) = Ok true)
  \/
  (exists k v,
     for_each keys
       (fun key (_ : unit) =>
          unknown <- py_not_in (VStr key) (VList opts) ;;
          if unknown then
            v <- py_getitem (VDict d) (VStr key) ;;
            Err (InvalidKwargError callback (VStr key) v (VList opts))
          else Ok tt)
       tt = Err (InvalidKwargError callback (VStr k) v (VList opts))).
Proof.
  induction keys as [| key rest IH]; intros Hkeys.
  - left. split; [reflexivity | intros k []].
  - cbn [for_each]. unfold py_not_in at 1 3, py_in at 1 3. cbn [bind].
    destruct (existsb (py_eq (VStr key)) opts) eqn:E; cbn [negb bind].
    + destruct IH as [[Hrun Hall] | (k & v & Hrun)].
      { intros k Hk. apply Hkeys. now right. }
      * left. split; [exact Hrun |].
        intros k [<- | Hk]; [unfold py_in; now rewrite E | now apply Hall].
      * right. exists k, v. exact Hrun.
    + right. assert (Hin : In key (dict_keys d)) by (apply Hkeys; now left).
      apply dict_get_in_keys in Hin. destruct Hin as [v Hv].
      exists key, v. unfold py_getitem. now rewrite Hv.
Qed.

(** [kwarg_check] on a dict, with a list of options: an unknown key is
    reported, or all keys are allowed. *)
Lemma kwarg_check_dict_cases :
  (exists k v,
     kwarg_check (VDict d) (VList opts) callback
     = Err (InvalidKwargError callback (VStr k) v (VList opts)))
  \/
  (forall k, In k (dict_keys d) -> py_in (VStr k) (VList opts) = Ok true).
Proof.
  destruct (key_loop_cases (dict_keys d) (fun k H => H))
    as [[_ Hall] | (k & v & Hrun)].
  - right. exact Hall.
  - left. exists k, v. unfold kwarg_check.
    change (negb (is_none (VDict d))) with true. cbv iota.
    change (py_keys (VDict d)) with (Ok (dict_keys d)).
    rewrite (bind_of_ok (Ok (dict_keys d)) _ (dict_keys d) eq_refl).
    now rewrite (bind_of_err _ _ _ Hrun).
Qed.
End KeyLoop.

(** X5: [shape_bbox_check] raises [ContradictingError] on no input, and
    [InvalidOptionError] only for [is_pano]: [daterange] and [zoom] are not
    among its options, so the key loop rejects them first. *)
Theorem shape_bbox_check_errors (kwargs : value) (e : exn) :
  Verify.shape_bbox_check kwargs = Err e ->
  match e with
  | ContradictingError _ _ _ => False
  | InvalidOptionError param _ _ => param = "is_pano"
  | _ => True
  end.
Proof.
  unfold Verify.shape_bbox_check.
  destruct kwargs as [| b | n | s | l | d];
    try (intros H; vm_compute in H; inversion H; exact I).
  destruct (kwarg_check_dict_cases d
              [VStr "max_date"; VStr "min_date"; VStr "is_pano"]
              (VStr "shape_bbox_check")) as [(k & v & ->) | Hall].
  - intros [= <-]. exact I.
  - assert (Hno : forall k,
               py_in (VStr k)
                 (VList [VStr "max_date"; VStr "min_date"; VStr "is_pano"])
               = Ok false ->
               dict_get d k = None).
    { intros k Hk. destruct (dict_get d k) eqn:E; [| reflexivity].
      assert (Hin : In k (dict_keys d)) by (apply dict_get_in_keys; eauto).
      apply Hall in Hin. rewrite Hin in Hk. discriminate Hk. }
    rewrite kwarg_check_after_zoom; [| exact Hall | | left; now apply Hno].
    + destruct (dict_get d "is_pano") as [is_pano |]; [| discriminate].
      destruct (existsb _ _); [discriminate |]. intros [= <-]. reflexivity.
    + unfold dict_mem at 3. rewrite (Hno "daterange" eq_refl).
      apply andb_false_r.
Qed.

Lemma shape_bbox_check_errors_witness :
  Verify.shape_bbox_check
    (VDict [("daterange", VStr "2021"); ("min_date", VStr "2020")])
  = Err (InvalidKwargError (VStr "shape_bbox_check") (VStr "daterange")
           (VStr "2021")
           (VList [VStr "max_date"; VStr "min_date"; VStr "is_pano"]))
  /\ True.
Proof.
  split; [reflexivity |].
  apply (shape_bbox_check_errors
           (VDict [("daterange", VStr "2021"); ("min_date", VStr "2020")])
           (InvalidKwargError (VStr "shape_bbox_check") (VStr "daterange")
              (VStr "2021")
              (VList [VStr "max_date"; VStr "min_date"; VStr "is_pano"]))).
  reflexivity.
Defined.

(** X6: [image_check] raises [InvalidOptionError] on no input: neither
    [zoom] nor [is_pano] is among its options. *)
Theorem image_check_errors (kwargs : value) (e : exn) :
  Verify.image_check kwargs = Err e ->
  match e with
  | InvalidOptionError _ _ _ => False
  | _ => True
  end.
Proof.
  unfold Verify.image_check.
  destruct kwargs as [| b | n | s | l | d];
    try (intros H; vm_compute in H; inversion H; exact I).
  destruct (kwarg_check_dict_cases d
              [VStr "min_date"; VStr "max_date"; VStr "daterange";
               VStr "radius"; VStr "image_type"; VStr "org_id"; VStr "fields"]
              (VStr "image_check")) as [(k & v & ->) | Hall].
  - intros [= <-]. exact I.
  - assert (Hno : forall k,
               py_in (VStr k)
                 (VList [VStr "min_date"; VStr "max_date"; VStr "daterange";
                         VStr "radius"; VStr "image_type"; VStr "org_id";
                         VStr "fields"])
               = Ok false ->
               dict_get d k = None).
    { intros k Hk. destruct (dict_get d k) eqn:E; [| reflexivity].
      assert (Hin : In k (dict_keys d)) by (apply dict_get_in_keys; eauto).
      apply Hall in Hin. rewrite Hin in Hk. discriminate Hk. }
    rewrite (kwarg_check_after_keys d _ _ Hall).
    destruct ((dict_mem d "min_date" || dict_mem d "max_date")
              && dict_mem d "daterange").
    + intros [= <-]. exact I.
    + unfold py_in, dict_mem.
      rewrite (Hno "zoom" eq_refl), (Hno "is_pano" eq_refl).
      discriminate.
Qed.

Lemma image_check_errors_witness :
  Verify.image_check (VDict [("zoom", VInt 20)])
  = Err (InvalidKwargError (VStr "image_check") (VStr "zoom") (VInt 20)
           (VList [VStr "min_date"; VStr "max_date"; VStr "daterange";
                   VStr "radius"; VStr "image_type"; VStr "org_id";
                   VStr "fields"]))
  /\ True.
Proof.
  split; [reflexivity |].
  apply (image_check_errors (VDict [("zoom", VInt 20)])
           (InvalidKwargError (VStr "image_check") (VStr "zoom") (VInt 20)
              (VList [VStr "min_date"; VStr "max_date"; VStr "daterange";
                      VStr "radius"; VStr "image_type"; VStr "org_id";
                      VStr "fields"]))).
  reflexivity.
Defined.

(** X7: among the integers, [thumbnail_size_check] accepts 256, 1024 and
    2048 and rejects every other one by [InvalidOptionError] with these
    three options; [True] and [False] are rejected in the same way. *)
Theorem thumbnail_size_check_spec :
  (forall n : Z,
     Verify.thumbnail_size_check (VInt n)
     = if (n =? 256) || (n =? 1024) || (n =? 2048)
       then Ok (VBool true)
       else Err (InvalidOptionError "thumbnail_size" (VInt n)
                   [VInt 256; VInt 1024; VInt 2048]))
  /\
  (forall b : bool,
     Verify.thumbnail_size_check (VBool b)
     = Err (InvalidOptionError "thumbnail_size" (VBool b)
              [VInt 256; VInt 1024; VInt 2048])).
Proof.
  split.
  - intros n. unfold Verify.thumbnail_size_check.
    cbn [py_in bind existsb py_eq].
    destruct (n =? 256), (n =? 1024), (n =? 2048); reflexivity.
  - intros [|]; reflexivity.
Qed.

(** ** More on [format.py] *)

Lemma dict_set_fresh (d : dict) (k : string) (v : value) :
  ~ In k (dict_keys d) -> dict_set d k v = (d ++ [(k, v)])%list.
Proof.
  induction d as [| [k0 v0] rest IH]; simpl; intros Hnot; [reflexivity |].
  destruct (String.eqb k0 k) eqn:E.
  - apply String.eqb_eq in E. exfalso. apply Hnot. now left.
  - rewrite IH; [reflexivity |]. intros Hin. apply Hnot. now right.
Qed.

Lemma existsb_py_eq_str (k : string) (ks : list string) :
  existsb (py_eq (VStr k)) (map VStr ks) = true <-> In k ks.
Proof.
  rewrite existsb_exists. split.
  - intros (v & Hv & Heq). apply in_map_iff in Hv.
    destruct Hv as (k' & <- & Hk'). simpl in Heq.
    apply String.eqb_eq in Heq. now subst.
  - intros Hin. exists (VStr k). split; [now apply in_map |].
    simpl. apply String.eqb_refl.
Qed.

Lemma for_each_raises {X S} (body : X -> S -> result S) (xs : list X)
    (s : S) (e : exn) :
  (exists x, In x xs /\ body x s = Err e) ->
  (forall x, In x xs -> body x s = Ok s \/ body x s = Err e) ->
  for_each xs body s = Err e.
Proof.
  induction xs as [| x rest IH]; intros (x0 & Hin & Hx0) Hall.
  - destruct Hin.
  - cbn [for_each]. destruct (Hall x (or_introl eq_refl)) as [Hx | Hx];
      rewrite Hx; cbn [bind]; [| reflexivity].
    apply IH.
    + destruct Hin as [<- | Hin]; [congruence | eauto].
    + intros y Hy. apply Hall. now right.
Qed.

Section FeatureOrder.
Import Format.

Variable d : dict.

(** The items of [d] under the keys [keys], in the order of [keys]. *)
Lemma copy_loop_appends (g : value) (keys : list string) :
  NoDup keys ->
  forall items props,
    Forall2 (fun k kv => fst kv = k /\ dict_get d k = Some (snd kv))
      keys items ->
    (forall k, In k keys -> ~ In k (dict_keys props)) ->
    for_each keys
      (fun key feature =>
         v <- py_getitem (VDict d) (VStr key) ;;
         py_setitem2 feature (VStr "properties") (VStr key) v)
      (VDict [("type", VStr "Feature"); ("geometry", g);
              ("properties", VDict props)])
    = Ok (VDict [("type", VStr "Feature"); ("geometry", g);
                 ("properties", VDict (props ++ items)%list)]).
Proof.
  induction 1 as [| key rest Hkey Hnodup IH]; intros items props Hitems Hfresh.
  - inversion Hitems; subst. now rewrite app_nil_r.
  - inversion Hitems as [| k0 kv ks items' Hkv Hrest]; subst.
    destruct kv as [k v]. destruct Hkv as [Hk Hv].
    simpl in Hk, Hv. subst k.
    cbn [for_each]. unfold py_getitem at 1. rewrite Hv.
    cbn -[for_each dict_set].
    rewrite (dict_set_fresh props key v) by (apply Hfresh; now left).
    cbn -[for_each py_getitem py_setitem2].
    assert (Hfresh' : forall k, In k rest ->
                                ~ In k (dict_keys (props ++ [(key, v)])%list)).
    { intros k Hk. unfold dict_keys. rewrite map_app, in_app_iff.
      intros [Hin | [<- | []]].
      - apply (Hfresh k); [now right | exact Hin].
      - contradiction. }
    pose proof (IH items' (props ++ [(key, v)])%list Hrest Hfresh') as Hrun.
    rewrite <- app_assoc in Hrun. exact Hrun.
Qed.

Lemma items_of_keys (keep : string -> bool) (d' : dict) :
  (forall k v, In (k, v) d' -> dict_get d k = Some v) ->
  Forall2 (fun k kv => fst kv = k /\ dict_get d k = Some (snd kv))
    (filter keep (dict_keys d')) (filter (fun kv => keep (fst kv)) d').
Proof.
  induction d' as [| [k v] rest IH]; intros Hget; simpl; [constructor |].
  destruct (keep k).
  - constructor; [split; [reflexivity | apply Hget; now left] |].
    apply IH. intros k' v' Hin. apply Hget. now right.
  - apply IH. intros k' v' Hin. apply Hget. now right.
Qed.

Lemma dict_get_of_item :
  NoDup (dict_keys d) -> forall k v, In (k, v) d -> dict_get d k = Some v.
Proof.
  induction d as [| [k0 v0] rest IH]; simpl; intros Hnodup k v Hin;
    [destruct Hin |].
  inversion Hnodup as [| ? ? Hk0 Hrest]; subst.
  destruct Hin as [[= <- <-] | Hin].
  - now rewrite String.eqb_refl.
  - destruct (String.eqb k0 k) eqn:E; [| now apply IH].
    apply String.eqb_eq in E. subst k0. exfalso. apply Hk0.
    now apply (in_map fst) in Hin.
Qed.
End FeatureOrder.

(** X8: on a record with a [geometry], [feature_to_geojson] returns the
    Feature whose properties are the other items of the record, in the
    order of the record. *)
Theorem feature_to_geojson_keeps_order (d : dict) (g : value) :
  NoDup (dict_keys d) ->
  dict_get d "geometry" = Some g ->
  Format.feature_to_geojson (VDict d)
  = Ok (VDict [("type", VStr "Feature"); ("geometry", g);
               ("properties",
                VDict (filter (fun kv => negb (String.eqb (fst kv) "geometry"))
                         d))]).
Proof.
  intros Hnodup Hg. unfold Format.feature_to_geojson.
  change (py_keys (VDict d)) with (Ok (dict_keys d)).
  rewrite (bind_of_ok (Ok (dict_keys d)) _ (dict_keys d) eq_refl).
  unfold py_getitem at 1. rewrite Hg.
  cbn -[for_each filter py_getitem py_setitem2].
  apply (copy_loop_appends d g _ (NoDup_filter _ Hnodup) _ []).
  - apply (items_of_keys d (fun k => negb (String.eqb k "geometry")) d).
    now apply dict_get_of_item.
  - intros k _ [].
Qed.

Lemma feature_to_geojson_keeps_order_witness :
  Format.feature_to_geojson
    (VDict [("value", VStr "object--street-light");
            ("geometry", VDict [("type", VStr "Point");
                                ("coordinates", VList [VInt 30; VInt 31])]);
            ("id", VStr "506566177256016")])
  = Ok (VDict [("type", VStr "Feature");
               ("geometry", VDict [("type", VStr "Point");
                                   ("coordinates", VList [VInt 30; VInt 31])]);
               ("properties",
                VDict [("value", VStr "object--street-light");
                       ("id", VStr "506566177256016")])]).
Proof.
  apply (feature_to_geojson_keeps_order
           [("value", VStr "object--street-light");
            ("geometry", VDict [("type", VStr "Point");
                                ("coordinates", VList [VInt 30; VInt 31])]);
            ("id", VStr "506566177256016")]).
  - repeat constructor; simpl; intuition discriminate.
  - reflexivity.
Defined.

Lemma join_never_copies_witness :
  Format.join_geojson_with_keys
    (VDict [("features",
             VList [VDict [("properties", VDict [("id", VInt 1)])]])])
    (VStr "id")
    (VDict [("features",
             VList [VDict [("properties",
                            VDict [("id", VInt 2); ("name", VStr "a")])]])])
    (VStr "id")
  = Ok (VDict [("features",
                VList [VDict [("properties", VDict [("id", VInt 1)])]])])
  /\ VDict [("features",
             VList [VDict [("properties", VDict [("id", VInt 1)])]])]
     = VDict [("features",
               VList [VDict [("properties", VDict [("id", VInt 1)])]])].
Proof.
  split; [reflexivity |].
  apply (join_never_copies (VStr "id") (VStr "id")
           (VDict [("features",
                    VList [VDict [("properties", VDict [("id", VInt 1)])]])])
           (VDict [("features",
                    VList [VDict [("properties",
                                   VDict [("id", VInt 2);
                                          ("name", VStr "a")])]])])).
  reflexivity.
Defined.

Section JoinPairs.
Import Format.

Variables src_key dest_key : string.

Lemma join_pair_no_dest_key (from_features into_features : value)
    (into_properties : dict) :
  py_getitem into_features (VStr "properties") = Ok (VDict into_properties) ->
  dict_get into_properties dest_key = None ->
  join_pair (VStr src_key) (VStr dest_key) into_features from_features
  = Ok from_features.
Proof.
  intros Hinto Hnone. unfold join_pair. rewrite Hinto. cbn [bind].
  unfold py_not_in, py_in, dict_mem. now rewrite Hnone.
Qed.

(** The body of the loops on two features whose properties are dicts. *)
Lemma join_pair_dicts (from_features into_features : value)
    (from_properties into_properties : dict) :
  py_getitem from_features (VStr "properties") = Ok (VDict from_properties) ->
  py_getitem into_features (VStr "properties") = Ok (VDict into_properties) ->
  join_pair (VStr src_key) (VStr dest_key) into_features from_features
  = match dict_get into_properties dest_key,
          dict_get from_properties src_key with
    | Some dest_id, Some src_id =>
        m <- py_int src_id ;;
        n <- py_int dest_id ;;
        if m =? n then
          for_each (dict_keys into_properties)
            (fun new_property from_features =>
               is_new <- py_not_in (VStr new_property)
                           (VList (map VStr (dict_keys from_properties))) ;;
               if is_new then
                 wrong <- py_getitem
                            (VList (map VStr (dict_keys from_properties)))
                            (VStr "properties") ;;
                 v <- py_getitem wrong (VStr new_property) ;;
                 py_setitem2 from_features
                   (VStr "properties") (VStr new_property) v
               else Ok from_features)
            from_features
        else Ok from_features
    | _, _ => Ok from_features
    end.
Proof.
  intros Hfrom Hinto. unfold join_pair. rewrite Hinto, Hfrom. cbn [bind].
  unfold py_not_in at 1 2, py_in at 1 2, py_getitem at 1 2, dict_mem.
  destruct (dict_get into_properties dest_key) as [dest_id |];
    [| reflexivity].
  destruct (dict_get from_properties src_key) as [src_id |];
    [| reflexivity].
  cbn [bind negb py_keys]. reflexivity.
Qed.

(** One turn of the copy loop: a property the source feature has is
    passed over, any other raises [TypeError]. *)
Lemma copy_turn (old_keys : list string) (new_property : string)
    (from_features : value) :
  (is_new <- py_not_in (VStr new_property) (VList (map VStr old_keys)) ;;
   if is_new then
     wrong <- py_getitem (VList (map VStr old_keys)) (VStr "properties") ;;
     v <- py_getitem wrong (VStr new_property) ;;
     py_setitem2 from_features (VStr "properties") (VStr new_property) v
   else Ok from_features)
  = if existsb (py_eq (VStr new_property)) (map VStr old_keys)
    then Ok from_features else Err TypeError.
Proof.
  unfold py_not_in, py_in. cbn [bind].
  now destruct (existsb _ _).
Qed.

Lemma join_pair_nothing_to_copy (from_features into_features : value) :
  nothing_to_copy src_key dest_key from_features into_features ->
  join_pair (VStr src_key) (VStr dest_key) into_features from_features
  = Ok from_features.
Proof.
  intros (qs & Hinto & [Hnone | (ps & Hfrom & Hcases)]).
  - now apply (join_pair_no_dest_key _ _ qs).
  - rewrite (join_pair_dicts _ _ ps qs Hfrom Hinto).
    destruct Hcases as [-> | (a & b & m & n & -> & -> & Ha & Hb & Hmn)].
    + now destruct (dict_get qs dest_key).
    + rewrite Ha, Hb. cbn [bind].
      destruct (m =? n) eqn:E; [| reflexivity].
      destruct Hmn as [Hne | Hsub]; [apply Z.eqb_eq in E; contradiction |].
      apply for_each_all_ok. intros k Hk. rewrite copy_turn.
      apply Hsub, existsb_py_eq_str in Hk. now rewrite Hk.
Qed.
End JoinPairs.

(** The first pair of features decides when it raises. *)
Lemma join_first_pair_raises
    (src dest : dict) (src_key dest_key from_features into_features : value)
    (rest_src rest_dest : list value) (e : exn) :
  dict_get src "features" = Some (VList (from_features :: rest_src)) ->
  dict_get dest "features" = Some (VList (into_features :: rest_dest)) ->
  Format.join_pair src_key dest_key into_features from_features = Err e ->
  Format.join_geojson_with_keys (VDict src) src_key (VDict dest) dest_key
  = Err e.
Proof.
  intros Hsrc Hdest Hpair. unfold Format.join_geojson_with_keys.
  unfold py_getitem at 1. rewrite Hsrc. cbn [bind py_iter comprehension].
  unfold py_getitem at 1. rewrite Hdest. cbn [bind py_iter for_each].
  rewrite Hpair. reflexivity.
Qed.

(** X10: when the first features of the two collections have the same
    integer id and the destination feature has a property that the source
    feature lacks, [join_geojson_with_keys] raises [TypeError]. *)
Theorem join_raises_on_new_property
    (src dest from_properties into_properties : dict)
    (src_key dest_key k : string)
    (from_features into_features src_id dest_id : value)
    (rest_src rest_dest : list value) (n : Z) :
  dict_get src "features" = Some (VList (from_features :: rest_src)) ->
  dict_get dest "features" = Some (VList (into_features :: rest_dest)) ->
  py_getitem from_features (VStr "properties") = Ok (VDict from_properties) ->
  py_getitem into_features (VStr "properties") = Ok (VDict into_properties) ->
  dict_get from_properties src_key = Some src_id ->
  dict_get into_properties dest_key = Some dest_id ->
  py_int src_id = Ok n ->
  py_int dest_id = Ok n ->
  In k (dict_keys into_properties) ->
  ~ In k (dict_keys from_properties) ->
  Format.join_geojson_with_keys
    (VDict src) (VStr src_key) (VDict dest) (VStr dest_key)
  = Err TypeError.
Proof.
  intros Hsrc Hdest Hfrom Hinto Hsid Hdid Hsn Hdn Hk Hnew.
  apply (join_first_pair_raises _ _ _ _ _ _ _ _ _ Hsrc Hdest).
  rewrite (join_pair_dicts _ _ _ _ _ _ Hfrom Hinto), Hsid, Hdid, Hsn, Hdn.
  cbn [bind]. rewrite Z.eqb_refl.
  apply for_each_raises.
  - exists k. split; [exact Hk |]. rewrite copy_turn.
    destruct (existsb _ _) eqn:E; [| reflexivity].
    now apply existsb_py_eq_str in E.
  - intros k' _. rewrite copy_turn. destruct (existsb _ _); auto.
Qed.

Lemma join_raises_on_new_property_witness :
  Format.join_geojson_with_keys
    (VDict [("type", VStr "FeatureCollection");
            ("features",
             VList [VDict [("type", VStr "Feature");
                           ("properties", VDict [("id", VStr "7")])]])])
    (VStr "id")
    (VDict [("type", VStr "FeatureCollection");
            ("features",
             VList [VDict [("type", VStr "Feature");
                           ("properties",
                            VDict [("key", VInt 7);
                                   ("value", VStr "object--sign")])]])])
    (VStr "key")
  = Err TypeError.
Proof.
  apply (join_raises_on_new_property
           [("type", VStr "FeatureCollection");
            ("features",
             VList [VDict [("type", VStr "Feature");
                           ("properties", VDict [("id", VStr "7")])]])]
           [("type", VStr "FeatureCollection");
            ("features",
             VList [VDict [("type", VStr "Feature");
                           ("properties",
                            VDict [("key", VInt 7);
                                   ("value", VStr "object--sign")])]])]
           [("id", VStr "7")]
           [("key", VInt 7); ("value", VStr "object--sign")]
           "id" "key" "key"
           (VDict [("type", VStr "Feature");
                   ("properties", VDict [("id", VStr "7")])])
           (VDict [("type", VStr "Feature");
                   ("properties",
                    VDict [("key", VInt 7);
                           ("value", VStr "object--sign")])])
           (VStr "7") (VInt 7) [] [] 7);
    try reflexivity.
  - simpl. now left.
  - simpl. intros [H | []]. discriminate H.
Defined.

(** X11: when no pair of a source and a destination feature has anything
    to copy (a join key is missing, the ids differ, or the destination
    feature has no property that the source feature lacks),
    [join_geojson_with_keys] returns [geojson_src] as it is. *)
Theorem join_nothing_to_copy
    (src dest : dict) (src_key dest_key : string)
    (src_features dest_features : list value) :
  dict_get src "features" = Some (VList src_features) ->
  dict_get dest "features" = Some (VList dest_features) ->
  Forall (fun from_features =>
            Forall (Format.nothing_to_copy src_key dest_key from_features)
              dest_features)
    src_features ->
  Format.join_geojson_with_keys
    (VDict src) (VStr src_key) (VDict dest) (VStr dest_key)
  = Ok (VDict src).
Proof.
  intros Hsrc Hdest Hall. unfold Format.join_geojson_with_keys.
  unfold py_getitem at 1. rewrite Hsrc. cbn [bind py_iter].
  rewrite (Forall2_comprehension _ src_features src_features).
  - cbn [bind py_setitem]. now rewrite (dict_set_same _ _ _ Hsrc).
  - clear Hsrc.
    induction Hall as [| from_features rest Hfrom _ IH]; constructor; auto.
    unfold py_getitem at 1. rewrite Hdest. cbn [bind py_iter].
    apply for_each_all_ok. intros into_features Hin.
    apply join_pair_nothing_to_copy.
    rewrite Forall_forall in Hfrom. now apply Hfrom.
Qed.

Lemma join_nothing_to_copy_witness :
  Format.join_geojson_with_keys
    (VDict [("features",
             VList [VDict [("properties",
                            VDict [("id", VStr "7"); ("value", VStr "a")])];
                    VDict [("properties", VDict [("id", VStr "8")])]])])
    (VStr "id")
    (VDict [("features",
             VList [VDict [("properties",
                            VDict [("id", VInt 7); ("value", VStr "b")])];
                    VDict [("properties", VDict [("name", VStr "c")])]])])
    (VStr "id")
  = Ok (VDict [("features",
                VList [VDict [("properties",
                               VDict [("id", VStr "7"); ("value", VStr "a")])];
                       VDict [("properties", VDict [("id", VStr "8")])]])]).
Proof.
  apply (join_nothing_to_copy _ _ "id" "id"
           [VDict [("properties",
                    VDict [("id", VStr "7"); ("value", VStr "a")])];
            VDict [("properties", VDict [("id", VStr "8")])]]
           [VDict [("properties",
                    VDict [("id", VInt 7); ("value", VStr "b")])];
            VDict [("properties", VDict [("name", VStr "c")])]]);
    try reflexivity.
  repeat constructor.
  - eexists. split; [reflexivity |]. right.
    eexists. split; [reflexivity |]. right.
    exists (VStr "7"), (VInt 7), 7, 7. repeat split. right.
    simpl. tauto.
  - eexists. split; [reflexivity |]. now left.
  - eexists. split; [reflexivity |]. right.
    eexists. split; [reflexivity |]. right.
    exists (VStr "8"), (VInt 7), 8, 7. repeat split. left. discriminate.
  - eexists. split; [reflexivity |]. now left.
Defined.

(** X12: when the first features of the two collections both have their
    join key and [int] fails on the id of the source feature (a string that
    is no decimal integer, [None], a list), its exception is the one
    [join_geojson_with_keys] raises. *)
Theorem join_raises_on_bad_id
    (src dest from_properties into_properties : dict)
    (src_key dest_key : string)
    (from_features into_features src_id dest_id : value)
    (rest_src rest_dest : list value) (e : exn) :
  dict_get src "features" = Some (VList (from_features :: rest_src)) ->
  dict_get dest "features" = Some (VList (into_features :: rest_dest)) ->
  py_getitem from_features (VStr "properties") = Ok (VDict from_properties) ->
  py_getitem into_features (VStr "properties") = Ok (VDict into_properties) ->
  dict_get from_properties src_key = Some src_id ->
  dict_get into_properties dest_key = Some dest_id ->
  py_int src_id = Err e ->
  Format.join_geojson_with_keys
    (VDict src) (VStr src_key) (VDict dest) (VStr dest_key)
  = Err e.
Proof.
  intros Hsrc Hdest Hfrom Hinto Hsid Hdid Hint.
  apply (join_first_pair_raises _ _ _ _ _ _ _ _ _ Hsrc Hdest).
  now rewrite (join_pair_dicts _ _ _ _ _ _ Hfrom Hinto), Hsid, Hdid, Hint.
Qed.

Lemma join_raises_on_bad_id_witness :
  Format.join_geojson_with_keys
    (VDict [("features",
             VList [VDict [("properties", VDict [("id", VStr "7.5")])]])])
    (VStr "id")
    (VDict [("features",
             VList [VDict [("properties", VDict [("id", VInt 7)])]])])
    (VStr "id")
  = Err ValueError.
Proof.
  apply (join_raises_on_bad_id
           [("features",
             VList [VDict [("properties", VDict [("id", VStr "7.5")])]])]
           [("features",
             VList [VDict [("properties", VDict [("id", VInt 7)])]])]
           [("id", VStr "7.5")] [("id", VInt 7)] "id" "id"
           (VDict [("properties", VDict [("id", VStr "7.5")])])
           (VDict [("properties", VDict [("id", VInt 7)])])
           (VStr "7.5") (VInt 7) [] []);
    reflexivity.
Defined.

Lemma detection_features_total_witness :
  exists out,
    Format.detection_features_to_geojson
      (VList [Format.sample_detection;
              VDict [("id", VStr "1"); ("value", VStr "v")]])
    = Ok out.
Proof.
  apply (detection_features_total
           [Format.sample_detection;
            VDict [("id", VStr "1"); ("value", VStr "v")]]).
  repeat constructor.
  - eexists. eexists. split; [reflexivity |]. split; [reflexivity |].
    right. do 3 eexists. repeat split; reflexivity.
  - eexists. eexists. split; [reflexivity |]. split; [reflexivity |].
    now left.
Defined.

Lemma comprehension_raises {X Y} (f : X -> result Y)
    (pre post : list X) (x : X) (e : exn) :
  Forall (fun x' => exists y, f x' = Ok y) pre ->
  f x = Err e ->
  comprehension f (pre ++ x :: post)%list = Err e.
Proof.
  intros Hpre Hx. induction Hpre as [| x' rest [y Hy] _ IH]; simpl.
  - now rewrite Hx.
  - now rewrite Hy, IH.
Qed.

Section DetectionFields.
Import Format.

Variable d : dict.

(** The Feature of a detection record, field by field. *)
Lemma detection_feature_fields :
  detection_record (VDict d) ->
  exists geometry,
    detection_feature (VDict d)
    = Ok (VDict
            [("type", VStr "Feature");
             ("geometry", geometry);
             ("properties",
              VDict [("image_id", VNone);
                     ("created_at", or_none (dict_get d "created_at"));
                     ("pixel_geometry", or_none (dict_get d "geometry"));
                     ("value", or_none (dict_get d "value"));
                     ("id", or_none (dict_get d "id"))])])
    /\
    match dict_get d "image" with
    | None => geometry = VDict []
    | Some image =>
        exists image_geometry coordinates,
          py_getitem image (VStr "geometry") = Ok image_geometry /\
          py_getitem image_geometry (VStr "coordinates") = Ok coordinates /\
          geometry = VDict [("type", VStr "Point");
                            ("coordinates", coordinates)]
    end.
Proof.
  intros (d' & id & [= <-] & Hid & Himage).
  unfold detection_feature.
  rewrite !field_or_none_dict.
  change (py_in (VStr "image") (VStr "feature")) with (Ok false).
  change (py_in (VStr "image") (VDict d)) with (Ok (dict_mem d "image")).
  rewrite (py_getitem_dict d "id"), Hid.
  unfold dict_mem.
  destruct Himage as [Hnone | (image & geometry & coordinates & Hi & Hg & Hc)].
  - rewrite Hnone. cbn [bind]. eexists. split; reflexivity.
  - rewrite (py_getitem_dict d "image"), Hi. cbn [bind].
    unfold py_getitem. rewrite Hg. cbn [bind]. rewrite Hc. cbn [bind].
    eexists. split; [reflexivity |].
    exists (VDict geometry), coordinates. repeat split.
    now rewrite Hc.
Qed.

(** A record without [id]. *)
Lemma detection_feature_without_id :
  dict_get d "id" = None ->
  dict_get d "image" = None \/
  (exists image geometry coordinates,
     dict_get d "image" = Some (VDict image) /\
     dict_get image "geometry" = Some (VDict geometry) /\
     dict_get geometry "coordinates" = Some coordinates) ->
  detection_feature (VDict d) = Err (KeyError (VStr "id")).
Proof.
  intros Hid Himage. unfold detection_feature.
  rewrite !field_or_none_dict.
  change (py_in (VStr "image") (VStr "feature")) with (Ok false).
  change (py_in (VStr "image") (VDict d)) with (Ok (dict_mem d "image")).
  rewrite (py_getitem_dict d "id"), Hid.
  unfold dict_mem.
  destruct Himage as [Hnone | (image & geometry & coordinates & Hi & Hg & Hc)].
  - rewrite Hnone. reflexivity.
  - rewrite (py_getitem_dict d "image"), Hi. cbn [bind].
    unfold py_getitem. rewrite Hg. cbn [bind]. rewrite Hc. reflexivity.
Qed.
End DetectionFields.

(** X14: for detection records the output has, record by record, a Feature
    whose geometry is the Point of the coordinates of the image, or the
    empty mapping when the record has no [image], and whose properties are
    [image_id] (always [None]), [created_at], [pixel_geometry] (the
    [geometry] of the record), [value] and [id], each with the value of the
    record or [None]. *)
Theorem detection_features_fields (records : list value) :
  Forall Format.detection_record records ->
  exists features,
    Format.detection_features_to_geojson (VList records)
    = Ok (VDict [("type", VStr "FeatureCollection");
                 ("features", VList features)])
    /\
    Forall2
      (fun record feature =>
         exists d geometry,
           record = VDict d /\
           feature
           = VDict
               [("type", VStr "Feature");
                ("geometry", geometry);
                ("properties",
                 VDict [("image_id", VNone);
                        ("created_at",
                         Format.or_none (dict_get d "created_at"));
                        ("pixel_geometry",
                         Format.or_none (dict_get d "geometry"));
                        ("value", Format.or_none (dict_get d "value"));
                        ("id", Format.or_none (dict_get d "id"))])]
           /\
           match dict_get d "image" with
           | None => geometry = VDict []
           | Some image =>
               exists image_geometry coordinates,
                 py_getitem image (VStr "geometry") = Ok image_geometry /\
                 py_getitem image_geometry (VStr "coordinates")
                 = Ok coordinates /\
                 geometry = VDict [("type", VStr "Point");
                                   ("coordinates", coordinates)]
           end)
      records features.
Proof.
  intros Hall.
  destruct (comprehension_total Format.detection_feature records)
    as [features Hfeatures].
  { eapply Forall_impl; [| exact Hall].
    intros record (d & id & -> & Hid & Himage).
    now apply (detection_feature_total d id). }
  exists features. split.
  - apply (detection_features_of_items (VList records) records features);
      [reflexivity | exact Hfeatures].
  - apply comprehension_Forall2 in Hfeatures.
    induction Hfeatures as [| record feature rs fs Hrf _ IH].
    + constructor.
    + inversion Hall as [| ? ? Hrecord Hrest]; subst.
      constructor; [| now apply IH].
      pose proof Hrecord as (d & id & -> & _).
      destruct (detection_feature_fields d Hrecord) as (geometry & Hrun & Hg).
      rewrite Hrun in Hrf. inversion Hrf; subst.
      exists d, geometry. repeat split. exact Hg.
Qed.

Lemma detection_features_fields_witness :
  exists features,
    Format.detection_features_to_geojson (VList [Format.sample_detection])
    = Ok (VDict [("type", VStr "FeatureCollection");
                 ("features", VList features)])
    /\
    Forall2
      (fun record feature =>
         exists d geometry,
           record = VDict d /\
           feature
           = VDict
               [("type", VStr "Feature");
                ("geometry", geometry);
                ("properties",
                 VDict [("image_id", VNone);
                        ("created_at",
                         Format.or_none (dict_get d "created_at"));
                        ("pixel_geometry",
                         Format.or_none (dict_get d "geometry"));
                        ("value", Format.or_none (dict_get d "value"));
                        ("id", Format.or_none (dict_get d "id"))])]
           /\
           match dict_get d "image" with
           | None => geometry = VDict []
           | Some image =>
               exists image_geometry coordinates,
                 py_getitem image (VStr "geometry") = Ok image_geometry /\
                 py_getitem image_geometry (VStr "coordinates")
                 = Ok coordinates /\
                 geometry = VDict [("type", VStr "Point");
                                   ("coordinates", coordinates)]
           end)
      [Format.sample_detection] features.
Proof.
  apply (detection_features_fields [Format.sample_detection]).
  repeat constructor.
  eexists. eexists. split; [reflexivity |]. split; [reflexivity |].
  right. do 3 eexists. repeat split; reflexivity.
Defined.

(** X15: the first record without an [id], after detection records,
    makes [detection_features_to_geojson] raise [KeyError] for ['id']. *)
Theorem detection_features_without_id
    (pre post : list value) (d : dict) :
  Forall Format.detection_record pre ->
  dict_get d "id" = None ->
  dict_get d "image" = None \/
  (exists image geometry coordinates,
     dict_get d "image" = Some (VDict image) /\
     dict_get image "geometry" = Some (VDict geometry) /\
     dict_get geometry "coordinates" = Some coordinates) ->
  Format.detection_features_to_geojson (VList (pre ++ VDict d :: post)%list)
  = Err (KeyError (VStr "id")).
Proof.
  intros Hpre Hid Himage. unfold Format.detection_features_to_geojson.
  cbn [py_iter bind].
  rewrite (comprehension_raises Format.detection_feature pre post (VDict d)
             (KeyError (VStr "id"))).
  - reflexivity.
  - eapply Forall_impl; [| exact Hpre].
    intros record (d' & id & -> & Hid' & Himage').
    now apply (detection_feature_total d' id).
  - now apply detection_feature_without_id.
Qed.

Lemma detection_features_without_id_witness :
  Format.detection_features_to_geojson
    (VList ([Format.sample_detection]
            ++ VDict [("value", VStr "v")]
               :: [VDict [("id", VStr "2")]])%list)
  = Err (KeyError (VStr "id")).
Proof.
  apply (detection_features_without_id
           [Format.sample_detection] [VDict [("id", VStr "2")]]
           [("value", VStr "v")]).
  - repeat constructor.
    eexists. eexists. split; [reflexivity |]. split; [reflexivity |].
    right. do 3 eexists. repeat split; reflexivity.
  - reflexivity.
  - now left.
Defined.

Section PolygonRing.
Import Format.

Context {G : Type}.
Variable GeoJSON : value -> result G.

(** X16: when every feature of the collection has a geometry with
    coordinates, [geojson_to_polgyon] hands [GeoJSON] one collection with
    one Feature without properties, whose geometry is a Polygon of one
    ring: the coordinates of the features, one per feature and in their
    order (the ring is not closed and may have any length). *)
Theorem geojson_to_polgyon_ring (d : dict) (features ring : list value) :
  dict_get d "features" = Some (VList features) ->
  Forall2
    (fun feature coordinates =>
       exists geometry,
         py_getitem feature (VStr "geometry") = Ok geometry /\
         py_getitem geometry (VStr "coordinates") = Ok coordinates)
    features ring ->
  geojson_to_polgyon GeoJSON (VDict d)
  = GeoJSON
      (VDict
         [("type", VStr "FeatureCollection");
          ("features",
           VList
             [VDict
                [("type", VStr "Feature");
                 ("properties", VDict []);
                 ("geometry",
                  VDict [("type", VStr "Polygon");
                         ("coordinates", VList [VList ring])])]])]).
Proof.
  intros Hfeatures Hring. unfold geojson_to_polgyon.
  unfold py_getitem at 1. rewrite Hfeatures. cbn [bind py_iter].
  rewrite (Forall2_comprehension _ features ring); [reflexivity |].
  eapply Forall2_impl; [| exact Hring].
  intros feature coordinates (geometry & Hg & Hc). now rewrite Hg.
Qed.

(** X17: the first feature without [geometry], after features that have
    coordinates, makes [geojson_to_polgyon] raise [KeyError] for
    ['geometry']; [GeoJSON] is not called. *)
Theorem geojson_to_polgyon_without_geometry
    (d feature : dict) (pre post : list value) :
  dict_get d "features" = Some (VList (pre ++ VDict feature :: post)%list) ->
  Forall
    (fun feature' =>
       exists geometry coordinates,
         py_getitem feature' (VStr "geometry") = Ok geometry /\
         py_getitem geometry (VStr "coordinates") = Ok coordinates)
    pre ->
  dict_get feature "geometry" = None ->
  geojson_to_polgyon GeoJSON (VDict d) = Err (KeyError (VStr "geometry")).
Proof.
  intros Hfeatures Hpre Hnone. unfold geojson_to_polgyon.
  unfold py_getitem at 1. rewrite Hfeatures. cbn [bind py_iter].
  rewrite (comprehension_raises _ pre post (VDict feature)
             (KeyError (VStr "geometry"))).
  - reflexivity.
  - eapply Forall_impl; [| exact Hpre].
    intros feature' (geometry & coordinates & Hg & Hc).
    exists coordinates. now rewrite Hg.
  - unfold py_getitem at 1. now rewrite Hnone.
Qed.
End PolygonRing.

Lemma geojson_to_polgyon_ring_witness :
  Format.geojson_to_polgyon (fun geojson => Ok geojson)
    (VDict [("type", VStr "FeatureCollection");
            ("features", VList Feature.sample_features)])
  = Ok (VDict
          [("type", VStr "FeatureCollection");
           ("features",
            VList
              [VDict
                 [("type", VStr "Feature");
                  ("properties", VDict []);
                  ("geometry",
                   VDict [("type", VStr "Polygon");
                          ("coordinates",
                           VList [VList [VList [VInt 5; VInt 5];
                                         VList [VInt 50; VInt 50]]])])]])]).
Proof.
  apply (geojson_to_polgyon_ring (fun geojson => Ok geojson)
           [("type", VStr "FeatureCollection");
            ("features", VList Feature.sample_features)]
           Feature.sample_features
           [VList [VInt 5; VInt 5]; VList [VInt 50; VInt 50]]).
  - reflexivity.
  - repeat constructor; eexists; split; reflexivity.
Defined.

Lemma geojson_to_polgyon_without_geometry_witness :
  Format.geojson_to_polgyon (fun geojson => Ok geojson)
    (VDict [("type", VStr "FeatureCollection");
            ("features",
             VList (Feature.sample_features
                    ++ VDict [("type", VStr "Feature");
                              ("properties", VDict [])] :: [])%list)])
  = Err (KeyError (VStr "geometry")).
Proof.
  apply (geojson_to_polgyon_without_geometry (fun geojson => Ok geojson)
           [("type", VStr "FeatureCollection");
            ("features",
             VList (Feature.sample_features
                    ++ VDict [("type", VStr "Feature");
                              ("properties", VDict [])] :: [])%list)]
           [("type", VStr "Feature"); ("properties", VDict [])]
           Feature.sample_features []).
  - reflexivity.
  - repeat constructor; eexists; eexists; split; reflexivity.
  - reflexivity.
Defined.

(** ** More on [feature.py] *)

Section Inversions.
Import Feature.

Context {A : Type}.

Lemma exec_ret_inv (a : A) (tr : list event) (o : outcome A) :
  exec (Ret a) tr o -> tr = [] /\ o = Done a.
Proof.
  intros H.
  refine
    (match H in exec p tr o return
       match p with
       | Ret a => tr = [] /\ o = Done a
       | _ => True
       end
     with
     | exec_ret _ => conj eq_refl eq_refl
     | exec_raise _ => I
     | exec_returned _ _ _ _ _ _ => I
     | exec_raised _ _ _ => I
     end).
Qed.

Lemma exec_raise_inv (e : exn) (tr : list event) (o : outcome A) :
  exec (Raise e) tr o -> tr = [] /\ o = Failed e.
Proof.
  intros H.
  refine
    (match H in exec p tr o return
       match p with
       | Raise e => tr = [] /\ o = Failed e
       | _ => True
       end
     with
     | exec_ret _ => I
     | exec_raise _ => conj eq_refl eq_refl
     | exec_returned _ _ _ _ _ _ => I
     | exec_raised _ _ _ => I
     end).
Qed.

(** A call that is part of a run that returns has returned. *)
Lemma exec_call_done (c : call) (k : answer c -> prog A)
    (tr : list event) (a : A) :
  exec (Call c k) tr (Done a) ->
  exists r tr', tr = Returned c r :: tr' /\ exec (k r) tr' (Done a).
Proof.
  intros H. apply exec_call_inv in H.
  destruct H as [H | (e & _ & H)]; [exact H | discriminate H].
Qed.

Lemma exec_lift_done {B : Type} (r : result B) (f : B -> prog A)
    (tr : list event) (a : A) :
  exec (pbind (lift r) f) tr (Done a) ->
  exists b, r = Ok b /\ exec (f b) tr (Done a).
Proof.
  destruct r as [b | e]; simpl; intros H.
  - now exists b.
  - apply exec_raise_inv in H. destruct H as [_ H]. discriminate H.
Qed.
End Inversions.

Lemma exec_pbind_done {A B : Type} (p : Feature.prog A)
    (f : A -> Feature.prog B) :
  forall tr b,
    Feature.exec (Feature.pbind p f) tr (Feature.Done b) ->
    exists a tr1 tr2,
      Feature.exec p tr1 (Feature.Done a) /\
      Feature.exec (f a) tr2 (Feature.Done b) /\
      tr = (tr1 ++ tr2)%list.
Proof.
  induction p as [a | e | c k IH]; intros tr b H; simpl in H.
  - exists a, [], tr. repeat split; [constructor | exact H].
  - apply exec_raise_inv in H. destruct H as [_ H]. discriminate H.
  - apply exec_call_done in H. destruct H as (r & tr' & -> & H).
    apply IH in H. destruct H as (a & tr1 & tr2 & H1 & H2 & ->).
    exists a, (Feature.Returned c r :: tr1), tr2.
    repeat split; [now constructor | exact H2].
Qed.

Section CompletedRuns.
Import Feature.

Variables bbox filter_values layer : value.

(** The run of one tile that returns. *)
Lemma tile_step_done (validated : value) (tile : Tile)
    (filtered_features out : list value) (tr : list event) :
  exec (tile_step bbox filter_values validated layer tile filtered_features)
    tr (Done out) ->
  exists url res data stages kept items,
    tr = tile_events layer tile url res data stages kept /\
    components bbox filter_values validated = Ok stages /\
    py_iter kept = Ok items /\
    out = (filtered_features ++ items)%list.
Proof.
  unfold tile_step, tile_events, url_event. intros H.
  destruct (py_eq layer (VStr "points")); cbn [pbind do_call] in H;
    apply exec_call_done in H; destruct H as (url & tr1 & -> & H);
    apply exec_call_done in H; destruct H as (res & tr2 & -> & H);
    apply exec_call_done in H; destruct H as (data & tr3 & -> & H);
    apply exec_lift_done in H; destruct H as (stages & Hstages & H);
    cbn [pbind do_call] in H;
    apply exec_call_done in H; destruct H as (kept & tr4 & -> & H);
    apply exec_lift_done in H; destruct H as (items & Hitems & H);
    apply exec_ret_inv in H; destruct H as [-> [= ->]];
    exists url, res, data, stages, kept, items; repeat split; assumption.
Qed.

(** The loop over the tiles, when it returns. *)
Lemma tile_loop_done (validated : value) (tiles : list Tile) :
  forall filtered_features out tr,
    exec (for_each_prog tiles
            (tile_step bbox filter_values validated layer) filtered_features)
      tr (Done out) ->
    exists items,
      tiles_run bbox filter_values validated layer tiles tr items /\
      out = (filtered_features ++ items)%list.
Proof.
  induction tiles as [| tile rest IH]; intros acc out tr H; simpl in H.
  - apply exec_ret_inv in H. destruct H as [-> [= ->]].
    exists []. split; [constructor | now rewrite app_nil_r].
  - apply exec_pbind_done in H.
    destruct H as (acc' & tr1 & tr2 & Hstep & Hrest & ->).
    apply tile_step_done in Hstep.
    destruct Hstep
      as (url & res & data & stages & kept & items & -> & Hs & Hi & ->).
    apply IH in Hrest. destruct Hrest as (items' & Hrun & ->).
    exists (items ++ items')%list. split.
    + now constructor.
    + now rewrite app_assoc.
Qed.
End CompletedRuns.

(** X18: a run of the bounding-box controller that returns is: the
    validation, the client, the enumeration of the tiles at zoom 14 from
    the four values of [bbox], then, tile after tile in the order of the
    enumeration, the URL builder of the layer, one request, the decoder on
    the content received and on the coordinates of the tile, and the
    pipeline on the decoded data.  The result is the JSON text of the
    collection of all the features the pipeline calls returned, in this
    order, a feature returned for two tiles being there twice. *)
Theorem completed_run
    (bbox filter_values filters layer out : value)
    (tr : list Feature.event) :
  Feature.exec
    (Feature.get_map_features_in_bbox_controller
       bbox filter_values filters layer) tr (Feature.Done out) ->
  exists validated west south east north tiles tr' items,
    py_getitem bbox (VStr "west") = Ok west /\
    py_getitem bbox (VStr "south") = Ok south /\
    py_getitem bbox (VStr "east") = Ok east /\
    py_getitem bbox (VStr "north") = Ok north /\
    tr = (Feature.Returned (Feature.points_traffic_signs_check filters)
            validated
          :: Feature.Returned Feature.Client tt
          :: Feature.Returned
               (Feature.mercantile_tiles west south east north 14) tiles
          :: tr')%list /\
    Feature.tiles_run bbox filter_values validated layer tiles tr' items /\
    out = Format.merged_features_list_to_geojson (VList items).
Proof.
  unfold Feature.get_map_features_in_bbox_controller.
  cbn [Feature.pbind Feature.do_call]. intros H.
  apply exec_call_done in H. destruct H as (validated & tr1 & -> & H).
  apply exec_call_done in H. destruct H as ([] & tr2 & -> & H).
  apply exec_lift_done in H. destruct H as (west & Hw & H).
  apply exec_lift_done in H. destruct H as (south & Hs & H).
  apply exec_lift_done in H. destruct H as (east & He & H).
  apply exec_lift_done in H. destruct H as (north & Hn & H).
  cbn [Feature.pbind] in H.
  apply exec_call_done in H. destruct H as (tiles & tr3 & -> & H).
  apply exec_pbind_done in H.
  destruct H as (features & tr4 & tr5 & Hloop & Hret & ->).
  apply exec_ret_inv in Hret. destruct Hret as [-> [= ->]].
  apply tile_loop_done in Hloop. destruct Hloop as (items & Hrun & ->).
  exists validated, west, south, east, north, tiles, tr4, items.
  rewrite app_nil_r. repeat split; assumption.
Qed.

Lemma completed_run_witness :
  exists validated west south east north tiles tr' items,
    py_getitem Feature.sample_bbox (VStr "west") = Ok west /\
    py_getitem Feature.sample_bbox (VStr "south") = Ok south /\
    py_getitem Feature.sample_bbox (VStr "east") = Ok east /\
    py_getitem Feature.sample_bbox (VStr "north") = Ok north /\
    fst Feature.sample_run
    = (Feature.Returned
         (Feature.points_traffic_signs_check Feature.sample_filters)
         validated
       :: Feature.Returned Feature.Client tt
       :: Feature.Returned
            (Feature.mercantile_tiles west south east north 14) tiles
       :: tr')%list /\
    Feature.tiles_run Feature.sample_bbox VNone validated (VStr "points")
      tiles tr' items /\
    Format.merged_features_list_to_geojson
      (VList (firstn 1 Feature.sample_features))
    = Format.merged_features_list_to_geojson (VList items).
Proof.
  apply (completed_run
           Feature.sample_bbox VNone Feature.sample_filters (VStr "points")
           (Format.merged_features_list_to_geojson
              (VList (firstn 1 Feature.sample_features)))
           (fst Feature.sample_run)).
  exact (run_exec Feature.sample_handler _ tt).
Defined.

Section ControllerCalls.
Import Feature.

Variable P : call -> Prop.
Variables bbox filter_values filters layer : value.

Hypothesis P_validation : P (points_traffic_signs_check filters).
Hypothesis P_client : P Client.
Hypothesis P_tiles :
  forall west south east north,
    py_getitem bbox (VStr "west") = Ok west ->
    py_getitem bbox (VStr "south") = Ok south ->
    py_getitem bbox (VStr "east") = Ok east ->
    py_getitem bbox (VStr "north") = Ok north ->
    P (mercantile_tiles west south east north 14).
Hypothesis P_url :
  forall x y z,
    if py_eq layer (VStr "points") then P (get_map_feature_point x y z)
    else P (get_map_feature_traffic_signs x y z).
Hypothesis P_get : forall url, P (client_get url).
Hypothesis P_decode : forall c x y z, P (vt_bytes_to_geojson c x y z).
Hypothesis P_pipeline :
  forall validated data stages,
    components bbox filter_values validated = Ok stages ->
    P (pipeline data stages).

(** Every call of the controller is one of the seven above. *)
Lemma controller_calls :
  every_call P
    (get_map_features_in_bbox_controller bbox filter_values filters layer).
Proof.
  unfold get_map_features_in_bbox_controller. cbn [pbind do_call].
  split; [exact P_validation |]. intros validated.
  split; [exact P_client |]. intros client.
  apply every_call_lift_bind; intros west Hw.
  apply every_call_lift_bind; intros south Hs.
  apply every_call_lift_bind; intros east He.
  apply every_call_lift_bind; intros north Hn.
  split; [now apply P_tiles |]. intros tiles.
  apply every_call_pbind; [| intros; exact I].
  apply every_call_for_each_prog. intros tile acc. unfold tile_step.
  apply every_call_pbind.
  { pose proof (P_url (tile_x tile) (tile_y tile) (tile_z tile)) as Hurl.
    destruct (py_eq layer (VStr "points")); now apply every_call_do_call. }
  intros url. apply every_call_pbind; [now apply every_call_do_call |].
  intros res. apply every_call_pbind; [now apply every_call_do_call |].
  intros data. apply every_call_lift_bind. intros stages Hstages.
  apply every_call_pbind.
  { apply every_call_do_call. now apply (P_pipeline validated). }
  intros kept. apply every_call_lift_bind. intros items _. exact I.
Qed.
End ControllerCalls.

(** X19: in every run, complete or not, the tiles are asked for at zoom
    14 and with the four values of [bbox]; the URL of a tile comes from the
    map-feature-point builder when [layer == "points"] and from the
    traffic-sign builder for every other [layer]. *)
Theorem controller_requests
    (bbox filter_values filters layer : value)
    (tr : list Feature.event) (o : Feature.outcome value) :
  Feature.exec
    (Feature.get_map_features_in_bbox_controller
       bbox filter_values filters layer) tr o ->
  forall ev,
    In ev tr ->
    match Feature.call_of ev with
    | Feature.mercantile_tiles west south east north zooms =>
        zooms = 14 /\
        py_getitem bbox (VStr "west") = Ok west /\
        py_getitem bbox (VStr "south") = Ok south /\
        py_getitem bbox (VStr "east") = Ok east /\
        py_getitem bbox (VStr "north") = Ok north
    | Feature.get_map_feature_point _ _ _ =>
        py_eq layer (VStr "points") = true
    | Feature.get_map_feature_traffic_signs _ _ _ =>
        py_eq layer (VStr "points") = false
    | _ => True
    end.
Proof.
  intros Hrun.
  apply Forall_forall.
  apply (every_call_exec
           (fun c =>
              match c with
              | Feature.mercantile_tiles west south east north zooms =>
                  zooms = 14 /\
                  py_getitem bbox (VStr "west") = Ok west /\
                  py_getitem bbox (VStr "south") = Ok south /\
                  py_getitem bbox (VStr "east") = Ok east /\
                  py_getitem bbox (VStr "north") = Ok north
              | Feature.get_map_feature_point _ _ _ =>
                  py_eq layer (VStr "points") = true
              | Feature.get_map_feature_traffic_signs _ _ _ =>
                  py_eq layer (VStr "points") = false
              | _ => True
              end) _ _ _ Hrun).
  apply controller_calls; try exact I; try (intros; exact I).
  - intros west south east north Hw Hs He Hn. now repeat split.
  - intros x y z. now destruct (py_eq layer (VStr "points")).
Qed.

Lemma controller_requests_witness :
  In (Feature.Returned (Feature.get_map_feature_point 8 8 14)
        (VStr "https://tiles/point"))
    (fst Feature.sample_run)
  /\ py_eq (VStr "points") (VStr "points") = true.
Proof.
  split; [vm_compute; tauto |].
  exact (controller_requests
           Feature.sample_bbox VNone Feature.sample_filters (VStr "points")
           (fst Feature.sample_run) (snd Feature.sample_run)
           (run_exec Feature.sample_handler _ tt)
           (Feature.Returned (Feature.get_map_feature_point 8 8 14)
              (VStr "https://tiles/point"))
           (or_intror (or_intror (or_intror (or_introl eq_refl))))).
Defined.

(** A run that returns has found the four bounds in [bbox]. *)
Lemma returned_run_bounds
    (bbox filter_values filters layer out : value)
    (tr : list Feature.event) :
  Feature.exec
    (Feature.get_map_features_in_bbox_controller
       bbox filter_values filters layer) tr (Feature.Done out) ->
  exists west south east north,
    py_getitem bbox (VStr "west") = Ok west /\
    py_getitem bbox (VStr "south") = Ok south /\
    py_getitem bbox (VStr "east") = Ok east /\
    py_getitem bbox (VStr "north") = Ok north.
Proof.
  unfold Feature.get_map_features_in_bbox_controller.
  cbn [Feature.pbind Feature.do_call]. intros H.
  apply exec_call_done in H. destruct H as (validated & tr1 & -> & H).
  apply exec_call_done in H. destruct H as (client & tr2 & -> & H).
  apply exec_lift_done in H. destruct H as (west & Hw & H).
  apply exec_lift_done in H. destruct H as (south & Hs & H).
  apply exec_lift_done in H. destruct H as (east & He & H).
  apply exec_lift_done in H. destruct H as (north & Hn & H).
  now exists west, south, east, north.
Qed.

(** X20: when [bbox] lacks one of [west], [south], [east] and [north]
    (or is no mapping), no run returns and no run goes beyond the
    validation and the client: the tiles are not enumerated and nothing is
    fetched. *)
Theorem controller_bbox_without_bound
    (bbox filter_values filters layer : value) (k : string) (e : exn)
    (tr : list Feature.event) (o : Feature.outcome value) :
  In k ["west"; "south"; "east"; "north"] ->
  py_getitem bbox (VStr k) = Err e ->
  Feature.exec
    (Feature.get_map_features_in_bbox_controller
       bbox filter_values filters layer) tr o ->
  (forall out, o <> Feature.Done out) /\
  Forall (fun ev =>
            Feature.call_of ev = Feature.points_traffic_signs_check filters \/
            Feature.call_of ev = Feature.Client) tr.
Proof.
  intros Hk He Hrun.
  assert (Hbad : forall west south east north,
             py_getitem bbox (VStr "west") = Ok west ->
             py_getitem bbox (VStr "south") = Ok south ->
             py_getitem bbox (VStr "east") = Ok east ->
             py_getitem bbox (VStr "north") = Ok north -> False).
  { intros west south east north Hw Hs He' Hn.
    destruct Hk as [<- | [<- | [<- | [<- | []]]]]; congruence. }
  split.
  - intros out ->. apply returned_run_bounds in Hrun.
    destruct Hrun as (w & s & e' & n & Hw & Hs & He' & Hn).
    exact (Hbad _ _ _ _ Hw Hs He' Hn).
  - apply (every_call_exec
             (fun c => c = Feature.points_traffic_signs_check filters \/
                       c = Feature.Client) _ _ _ Hrun).
    unfold Feature.get_map_features_in_bbox_controller.
    cbn [Feature.pbind Feature.do_call].
    split; [now left |]. intros validated.
    split; [now right |]. intros client.
    apply every_call_lift_bind; intros west Hw.
    apply every_call_lift_bind; intros south Hs.
    apply every_call_lift_bind; intros east He'.
    apply every_call_lift_bind; intros north Hn.
    exfalso. exact (Hbad _ _ _ _ Hw Hs He' Hn).
Qed.

Lemma controller_bbox_without_bound_witness :
  (forall out,
     snd (Feature.run Feature.sample_handler
            (Feature.get_map_features_in_bbox_controller
               (VDict [("west", VInt 1); ("south", VInt 2); ("east", VInt 3)])
               VNone Feature.sample_filters (VStr "points")) tt)
     <> Feature.Done out) /\
  Forall (fun ev =>
            Feature.call_of ev
            = Feature.points_traffic_signs_check Feature.sample_filters \/
            Feature.call_of ev = Feature.Client)
    (fst (Feature.run Feature.sample_handler
            (Feature.get_map_features_in_bbox_controller
               (VDict [("west", VInt 1); ("south", VInt 2); ("east", VInt 3)])
               VNone Feature.sample_filters (VStr "points")) tt)).
Proof.
  apply (controller_bbox_without_bound
           (VDict [("west", VInt 1); ("south", VInt 2); ("east", VInt 3)])
           VNone Feature.sample_filters (VStr "points")
           "north" (KeyError (VStr "north"))).
  - simpl. tauto.
  - reflexivity.
  - exact (run_exec Feature.sample_handler _ tt).
Defined.

Lemma exec_pbind_inv {A B : Type} (p : Feature.prog A)
    (f : A -> Feature.prog B) :
  forall tr o,
    Feature.exec (Feature.pbind p f) tr o ->
    (exists a tr1 tr2,
       Feature.exec p tr1 (Feature.Done a) /\
       Feature.exec (f a) tr2 o /\
       tr = (tr1 ++ tr2)%list)
    \/
    (exists e, Feature.exec p tr (Feature.Failed e) /\ o = Feature.Failed e).
Proof.
  induction p as [a | e | c k IH]; intros tr o H; simpl in H.
  - left. exists a, [], tr. repeat split; [constructor | exact H].
  - apply exec_raise_inv in H. destruct H as [-> ->].
    right. exists e. split; [constructor | reflexivity].
  - apply exec_call_inv in H.
    destruct H as [(r & tr' & -> & H) | (e & -> & ->)].
    + apply IH in H.
      destruct H as [(a & tr1 & tr2 & H1 & H2 & ->) | (e & H1 & ->)].
      * left. exists a, (Feature.Returned c r :: tr1), tr2.
        repeat split; [now constructor | exact H2].
      * right. exists e. split; [now constructor | reflexivity].
    + right. exists e. split; [constructor | reflexivity].
Qed.

Section WithoutStages.
Import Feature.

Variables bbox filter_values validated layer : value.
Variable e : exn.
Hypothesis no_stages : components bbox filter_values validated = Err e.

Lemma tile_step_stopped (tile : Tile) (filtered_features : list value)
    (tr : list event) (o : outcome (list value)) :
  exec (tile_step bbox filter_values validated layer tile filtered_features)
    tr o ->
  stopped e tr o.
Proof.
  unfold tile_step, stopped. rewrite no_stages. intros H.
  destruct (py_eq layer (VStr "points")); cbn [pbind do_call lift] in H;
    (apply exec_call_inv in H;
     destruct H as [(url & tr1 & -> & H) | (e1 & -> & ->)];
     [| split; [eauto |]; split;
        [repeat constructor; discriminate
        | intros ev [<- | []]; discriminate]]);
    (apply exec_call_inv in H;
     destruct H as [(res & tr2 & -> & H) | (e2 & -> & ->)];
     [| split; [eauto |]; split;
        [repeat constructor; discriminate
        | intros ev [<- | [<- | []]]; discriminate]]);
    (apply exec_call_inv in H;
     destruct H as [(data & tr3 & -> & H) | (e3 & -> & ->)];
     [| split; [eauto |]; split;
        [repeat constructor; discriminate
        | intros ev [<- | [<- | [<- | []]]]; discriminate]]);
    apply exec_raise_inv in H; destruct H as [-> ->];
    (split; [eauto |]; split;
     [repeat constructor; discriminate | reflexivity]).
Qed.

Lemma tile_loop_stopped (tiles : list Tile) (filtered_features : list value)
    (tr : list event) (o : outcome (list value)) :
  exec (for_each_prog tiles
          (tile_step bbox filter_values validated layer) filtered_features)
    tr o ->
  (tiles = [] /\ tr = [] /\ o = Done filtered_features) \/ stopped e tr o.
Proof.
  destruct tiles as [| tile rest]; simpl; intros H.
  - left. apply exec_ret_inv in H. tauto.
  - right. apply exec_pbind_inv in H.
    destruct H as [(a & tr1 & tr2 & H1 & _) | (e' & H1 & ->)].
    + apply tile_step_stopped in H1. destruct H1 as [[e' H1] _].
      discriminate H1.
    + now apply tile_step_stopped in H1.
Qed.
End WithoutStages.

(** X21: when the stage list cannot be built from what the validation
    returned (a filter key is missing, or the value is no mapping), no run
    calls the pipeline; a run in which a tile is decoded ends with the
    exception of the stage list, raised after the tile was fetched; and a
    run returns only when there is no tile, with the empty collection. *)
Theorem controller_without_stages
    (bbox filter_values filters layer validated : value) (e : exn)
    (tr rest : list Feature.event) (o : Feature.outcome value) :
  Feature.exec
    (Feature.get_map_features_in_bbox_controller
       bbox filter_values filters layer) tr o ->
  tr = Feature.Returned (Feature.points_traffic_signs_check filters) validated
       :: rest ->
  Feature.components bbox filter_values validated = Err e ->
  Forall (fun ev => forall data stages,
            Feature.call_of ev <> Feature.pipeline data stages) rest /\
  (forall ev, In ev rest -> Feature.decoded ev = true ->
              o = Feature.Failed e) /\
  (forall out, o = Feature.Done out ->
               out = Format.merged_features_list_to_geojson (VList [])).
Proof.
  unfold Feature.get_map_features_in_bbox_controller.
  cbn [Feature.pbind Feature.do_call]. intros H Htr Hstages.
  apply exec_call_inv in H.
  destruct H as [(r & tr1 & -> & H) | (e1 & -> & _)];
    [| discriminate Htr].
  assert (Hr : r = validated /\ tr1 = rest).
  { assert (Hhd : hd_error
                    (Feature.Returned
                       (Feature.points_traffic_signs_check filters) r :: tr1)
                  = hd_error
                      (Feature.Returned
                         (Feature.points_traffic_signs_check filters)
                         validated :: rest)) by now rewrite Htr.
    assert (Htl : tl (Feature.Returned
                        (Feature.points_traffic_signs_check filters) r :: tr1)
                  = tl (Feature.Returned
                          (Feature.points_traffic_signs_check filters)
                          validated :: rest)) by now rewrite Htr.
    simpl in Hhd, Htl. split; [| exact Htl].
    apply (f_equal (fun o => match o with
                             | Some ev => Feature.validated_of ev
                             | None => None
                             end)) in Hhd.
    simpl in Hhd. now injection Hhd. }
  destruct Hr as [-> ->]. clear Htr.
  apply exec_call_inv in H.
  destruct H as [([] & tr2 & -> & H) | (e2 & -> & ->)].
  2:{ split; [repeat constructor; discriminate |].
      split; [intros ev [<- | []]; discriminate | discriminate]. }
  assert (Hraise : forall (X : Type) (r : result X) k tr o,
             Feature.exec (Feature.pbind (Feature.lift r) k) tr o ->
             (exists x, r = Ok x /\ Feature.exec (k x) tr o) \/
             (exists e', tr = [] /\ o = @Feature.Failed value e')).
  { intros X [x | e'] k0 tr0 o0 Hx; simpl in Hx.
    - left. now exists x.
    - right. exists e'. now apply exec_raise_inv in Hx. }
  assert (Hend : forall e' : exn,
             Forall (fun ev => forall data stages,
                       Feature.call_of ev <> Feature.pipeline data stages)
               [Feature.Returned Feature.Client tt] /\
             (forall ev, In ev [Feature.Returned Feature.Client tt] ->
                         Feature.decoded ev = true ->
                         @Feature.Failed value e' = Feature.Failed e) /\
             (forall out, @Feature.Failed value e' = Feature.Done out ->
                          out = Format.merged_features_list_to_geojson
                                  (VList []))).
  { intros e'. split; [repeat constructor; discriminate |].
    split; [intros ev [<- | []]; discriminate | discriminate]. }
  apply Hraise in H. destruct H as [(west & _ & H) | (e' & -> & ->)];
    [| apply Hend].
  apply Hraise in H. destruct H as [(south & _ & H) | (e' & -> & ->)];
    [| apply Hend].
  apply Hraise in H. destruct H as [(east & _ & H) | (e' & -> & ->)];
    [| apply Hend].
  apply Hraise in H. destruct H as [(north & _ & H) | (e' & -> & ->)];
    [| apply Hend].
  cbn [Feature.pbind] in H. apply exec_call_inv in H.
  destruct H as [(tiles & tr3 & -> & H) | (e3 & -> & ->)].
  2:{ split; [repeat constructor; discriminate |].
      split; [intros ev [<- | [<- | []]]; discriminate | discriminate]. }
  apply exec_pbind_inv in H.
  destruct H as [(features & tr4 & tr5 & Hloop & Hret & ->) | (e' & Hloop & ->)].
  - apply exec_ret_inv in Hret. destruct Hret as [-> ->].
    apply (tile_loop_stopped _ _ _ _ _ Hstages) in Hloop.
    destruct Hloop as [(-> & -> & [= ->]) | [[e' Hf] _]]; [| discriminate Hf].
    split; [repeat constructor; discriminate |].
    split; [intros ev [<- | [<- | []]]; discriminate |].
    now intros out [= <-].
  - apply (tile_loop_stopped _ _ _ _ _ Hstages) in Hloop.
    destruct Hloop as [(_ & _ & Hd) | (_ & Hnone & Hdec)]; [discriminate Hd |].
    split; [repeat constructor; try discriminate; exact Hnone |].
    split; [| discriminate].
    intros ev [<- | [<- | Hin]] Hev; try discriminate Hev.
    specialize (Hdec ev Hin Hev). now injection Hdec as ->.
Qed.

Lemma controller_without_stages_witness :
  Forall (fun ev => forall data stages,
            Feature.call_of ev <> Feature.pipeline data stages)
    (tl (fst Feature.lenient_run)) /\
  (forall ev, In ev (tl (fst Feature.lenient_run)) ->
              Feature.decoded ev = true ->
              snd Feature.lenient_run
              = Feature.Failed (KeyError (VStr "existed_at"))) /\
  (forall out, snd Feature.lenient_run = Feature.Done out ->
               out = Format.merged_features_list_to_geojson (VList [])).
Proof.
  apply (controller_without_stages
           Feature.sample_bbox VNone (VDict []) (VStr "traffic_signs")
           (VDict []) (KeyError (VStr "existed_at"))
           (fst Feature.lenient_run) (tl (fst Feature.lenient_run))
           (snd Feature.lenient_run)).
  - exact (run_exec Feature.lenient_handler _ tt).
  - reflexivity.
  - reflexivity.
Defined.



(** X23: a [zoom] that is no number (a string such as ['15'], [None], a
    list), in a [kwargs] that passes the key check and the [daterange]
    check, makes [kwarg_check] raise [TypeError] on the comparison with 14;
    no [InvalidOptionError] is raised for it. *)
Theorem kwarg_check_zoom_not_a_number
    (d : dict) (options callback zoom : value) :
  (forall k, In k (dict_keys d) -> py_in (VStr k) options = Ok true) ->
  (dict_mem d "min_date" || dict_mem d "max_date") && dict_mem d "daterange"
    = false ->
  dict_get d "zoom" = Some zoom ->
  (forall n, zoom <> VInt n) ->
  (forall b, zoom <> VBool b) ->
  Verify.kwarg_check (VDict d) options callback = Err TypeError.
Proof.
  intros Hkeys Hdates Hzoom Hint Hbool.
  rewrite (kwarg_check_after_keys d options callback Hkeys), Hdates.
  unfold py_in, py_getitem.
  rewrite (dict_mem_get _ _ _ Hzoom), Hzoom. cbn [bind].
  destruct zoom as [| b | n | s | l | d']; try reflexivity.
  - now destruct (Hbool b).
  - now destruct (Hint n).
Qed.

Lemma kwarg_check_zoom_not_a_number_witness :
  Verify.kwarg_check
    (VDict [("zoom", VStr "15")]) (VList [VStr "zoom"]) (VStr "x")
  = Err TypeError.
Proof.
  apply (kwarg_check_zoom_not_a_number
           [("zoom", VStr "15")] (VList [VStr "zoom"]) (VStr "x")
           (VStr "15")).
  - intros k [<- | []]. reflexivity.
  - reflexivity.
  - reflexivity.
  - discriminate.
  - discriminate.
Defined.

(** ** [json.dumps] and [json.loads] *)

Section Strings.





Lemma strip_prefix_app (p rest : string) :
  strip_prefix p (p ++ rest) = Some rest.
Proof.
  induction p as [| a p IH]; simpl; [reflexivity |].
  now rewrite Ascii.eqb_refl.
Qed.



End Strings.

Section Numbers.








End Numbers.

Section Values.

Variable P : value -> Prop.
Hypothesis P_none : P VNone.
Hypothesis P_bool : forall b, P (VBool b).
Hypothesis P_int : forall n, P (VInt n).
Hypothesis P_str : forall s, P (VStr s).
Hypothesis P_list : forall l, Forall P l -> P (VList l).
Hypothesis P_dict : forall d, Forall (fun kv => P (snd kv)) d -> P (VDict d).

End Values.




Section Heads.





End Heads.


Section ReadBack.







End ReadBack.


